(** * Ecommerce API: a shallow embedding of [main.py] and its properties

    The development follows the layout of the service:

    - [Bson]: the 12-byte object identifier of the document store, its
      24-character hexadecimal string form and the bytes [ObjectId(s)]
      reads from a string;
    - [value]: the Python values that occur in documents, and which of
      them the JSON encoder of the framework takes ([json_safe]);
    - [Py]: a state-and-exception monad shared by the code that mutates
      dict objects and by the request handlers;
    - [Helpers]: [serialize_id] and [serialize_document] over a heap of
      dict objects, so that copying and in-place update are visible;
    - [Numeric]: binary64 arithmetic, [sum] and [round(_, 2)];
    - [Database]: the storage interface ([create_document],
      [get_documents], [find_one], [find_in]);
    - [Routes]: the request handlers, and [route], what the framework
      makes of what a handler returns or raises;
    - [OrderSpec]: the total of an order in the words of the
      specification, which the handler is compared with;
    - [Diagnostics], [App], [Invariant]: the two remaining routes, the
      routing table, and what the store keeps from request to request.

    The import [from bson import ObjectId] is taken to succeed (the driver
    ships it, as the comment next to the import says), so [ObjectId] is the
    class and every [... if ObjectId else ...] takes its first arm. A
    string is the list of the bytes of its UTF-8 encoding. *)

From Stdlib Require Import ZArith NArith Floats String Ascii List.
From Stdlib.Strings Require Import Byte.
From stdpp Require Import base decidable proof_irrel option list gmap strings fin_maps.

Set Warnings "-register-all,-inexact-float".

Open Scope string_scope.

(* ===================================================================== *)
(** ** Object identifiers *)
(* ===================================================================== *)

Module Bson.

(** An identifier is 12 bytes. *)
Record ObjectId := mkObjectId {
  binary : list byte;
  binary_len : Is_true (Nat.eqb (length binary) 12)
}.

(** The lowercase digit of a value below 16. *)
Definition hex_digit (n : N) : ascii :=
  ascii_of_N (if (n <? 10)%N then 48 + n else 87 + n)%N.

(** The value of a digit, in either case; [None] for any other
    character. *)
Definition hex_value (c : ascii) : option N :=
  let n := N_of_ascii c in
  if (48 <=? n)%N && (n <=? 57)%N then Some (n - 48)%N
  else if (97 <=? n)%N && (n <=? 102)%N then Some (n - 87)%N
  else if (65 <=? n)%N && (n <=? 70)%N then Some (n - 55)%N
  else None.

(** [bytes.hex()]: two lowercase digits per byte. *)
Fixpoint hexlify (bs : list byte) : string :=
  match bs with
  | [] => ""
  | b :: bs' =>
      String (hex_digit (Byte.to_N b / 16))
        (String (hex_digit (Byte.to_N b mod 16)) (hexlify bs'))
  end.

(** [Py_ISSPACE]: space, tab, line feed, vertical tab, form feed,
    carriage return. *)
Definition is_space (c : ascii) : bool :=
  let n := N_of_ascii c in
  (n =? 32)%N || ((9 <=? n)%N && (n <=? 13)%N).

(** [bytes.fromhex(s)]: whitespace before a pair of digits (and at the
    end) is skipped; a character that is neither, a digit left alone, or
    whitespace inside a pair is a [ValueError], here [None]. A string is
    its UTF-8 encoding; no byte of a character outside ASCII is a digit or
    whitespace, so such a string is refused, as in Python. *)
Fixpoint fromhex (s : string) : option (list byte) :=
  match s with
  | "" => Some []
  | String c rest =>
      if is_space c then fromhex rest
      else
        match rest with
        | String lo rest' =>
            match hex_value c, hex_value lo, fromhex rest' with
            | Some h, Some l, Some bs =>
                match Byte.of_N (16 * h + l) with
                | Some b => Some (b :: bs)
                | None => None
                end
            | _, _, _ => None
            end
        | "" => None
        end
  end.

Definition of_binary (bs : list byte) : option ObjectId :=
  match decide (Is_true (Nat.eqb (length bs) 12)) with
  | left H => Some (mkObjectId bs H)
  | right _ => None
  end.

(** [str(oid)]. *)
Definition str (o : ObjectId) : string := hexlify (binary o).

(** The bytes [ObjectId(s)] holds for a string [s]: the constructor
    tests [len(s) == 24] and takes [bytes.fromhex(s)], so the bytes are 12
    for 24 digits and fewer when [s] has whitespace; [None] stands for
    [InvalidId]. (A string of 24 characters that is not 24 bytes long has
    a character outside ASCII, which [fromhex] refuses: the answer is
    [InvalidId] whichever length is counted.) *)
Definition from_str (s : string) : option (list byte) :=
  if Nat.eqb (String.length s) 24 then fromhex s else None.

Lemma ObjectId_eq (o1 o2 : ObjectId) : binary o1 = binary o2 → o1 = o2.
Proof.
  destruct o1 as [b1 H1], o2 as [b2 H2]; simpl; intros ->.
  f_equal. apply proof_irrel.
Qed.

#[global] Instance byte_eq_dec : EqDecision byte := Byte.byte_eq_dec.

#[global] Instance ObjectId_eq_dec : EqDecision ObjectId.
Proof.
  intros o1 o2. destruct (decide (binary o1 = binary o2)) as [E|N].
  - left. by apply ObjectId_eq.
  - right. intros ->. by apply N.
Defined.

End Bson.

Export Bson(ObjectId).

(* ===================================================================== *)
(** ** Python values and the monad of effects *)
(* ===================================================================== *)

(** The values that occur in documents, request bodies and responses. A
    [float] is a binary64 number, an [int] is unbounded. *)
Inductive value :=
| VNone
| VBool (b : bool)
| VInt (z : Z)
| VFloat (f : float)
| VStr (s : string)
| VObjectId (o : ObjectId)
| VList (l : list value)
| VDict (d : gmap string value).

(** The entries of a dict. *)
Abbreviation pydict := (gmap string value).

(** Whether the framework can send a value as JSON: the encoder raises on
    an identifier, which it does not know, and on a float that is not
    finite, at any depth. *)
Fixpoint json_safe (v : value) : bool :=
  match v with
  | VFloat f => PrimFloat.is_finite f
  | VObjectId _ => false
  | VList l => forallb json_safe l
  | VDict d => map_fold (λ _ v acc, json_safe v && acc) true d
  | VNone | VBool _ | VInt _ | VStr _ => true
  end.

(** [v is None] *)
Definition is_None (v : value) : bool :=
  match v with VNone => true | _ => false end.

(** [isinstance(v, ObjectId)] *)
Definition isinstance_ObjectId (v : value) : bool :=
  match v with VObjectId _ => true | _ => false end.

Inductive exn :=
| HTTPException (status_code : nat) (detail : string)
| KeyError (key : string)
| TypeError (msg : string)
| OverflowError (msg : string)
| InvalidId
| NotImplementedError (msg : string)
| StorageError (msg : string).

Inductive result (A : Type) :=
| Ok (a : A)
| Raise (e : exn).
Arguments Ok {A} a.
Arguments Raise {A} e.

(** A computation over a state [S] that returns or raises. A raised
    exception keeps the state reached so far. *)
Definition Py (S A : Type) : Type := S → result A * S.

Definition ret {S A} (a : A) : Py S A := λ s, (Ok a, s).

Definition raise {S A} (e : exn) : Py S A := λ s, (Raise e, s).

Definition bind {S A B} (m : Py S A) (k : A → Py S B) : Py S B :=
  λ s, match m s with
       | (Ok a, s') => k a s'
       | (Raise e, s') => (Raise e, s')
       end.

(** A computation that does not touch the state. *)
Definition lift {S A} (r : result A) : Py S A := λ s, (r, s).

(** The results of a sequence of computations, up to the first that
    raises. *)
Fixpoint results {A} (rs : list (result A)) : result (list A) :=
  match rs with
  | [] => Ok []
  | Ok a :: rs' =>
      match results rs' with
      | Ok l => Ok (a :: l)
      | Raise e => Raise e
      end
  | Raise e :: _ => Raise e
  end.

Declare Scope py_scope.
Delimit Scope py_scope with py.
Notation "x <- m ;; k" := (bind m (λ x, k))
  (at level 100, m at next level, right associativity) : py_scope.
Notation "m ;; k" := (bind m (λ _, k))
  (at level 100, right associativity) : py_scope.
Open Scope py_scope.

(** [for x in xs: body(x)] *)
Fixpoint for_each {S A} (xs : list A) (body : A → Py S unit) : Py S unit :=
  match xs with
  | [] => ret tt
  | x :: xs' => body x ;; for_each xs' body
  end.

(** [[f(x) for x in xs]] *)
Fixpoint comprehension {S A B} (f : A → Py S B) (xs : list A) : Py S (list B) :=
  match xs with
  | [] => ret []
  | x :: xs' => y <- f x ;; ys <- comprehension f xs' ;; ret (y :: ys)
  end.

(* ===================================================================== *)
(** ** Dict objects *)
(* ===================================================================== *)

(** Dicts are objects: a variable holds a reference, and [doc[k] = v] or
    [doc.pop(k)] updates the object every holder of the reference sees. *)
Definition loc := positive.

Abbreviation heap := (gmap loc (gmap string value)).

Module Dict.

Definition load (l : loc) : Py heap pydict :=
  λ h, match h !! l with
       | Some d => (Ok d, h)
       | None => (Raise (TypeError "not a dict object"), h)
       end.

Definition store (l : loc) (d : pydict) : Py heap unit :=
  λ h, (Ok tt, <[l := d]> h).

(** A new object gets an address no object of the heap has. *)
Definition new (d : pydict) : Py heap loc :=
  λ h, let l := fresh (dom h) in (Ok l, <[l := d]> h).

(** [{**doc}] *)
Definition copy (l : loc) : Py heap loc :=
  d <- load l ;; new d.

(** [len(doc)] *)
Definition len (l : loc) : Py heap nat :=
  d <- load l ;; ret (size d).

(** [doc.get(k)]: [None] for a missing key. *)
Definition get (l : loc) (k : string) : Py heap value :=
  d <- load l ;; ret (default VNone (d !! k)).

(** [doc.pop(k)]: removes the key and returns its value; [KeyError] for a
    missing key. *)
Definition pop (l : loc) (k : string) : Py heap value :=
  d <- load l ;;
  match d !! k with
  | Some v => store l (delete k d) ;; ret v
  | None => raise (KeyError k)
  end.

(** [doc[k] = v] *)
Definition setitem (l : loc) (k : string) (v : value) : Py heap unit :=
  d <- load l ;; store l (<[k := v]> d).

(** [list(doc.items())]: a snapshot of the entries. *)
Definition items (l : loc) : Py heap (list (string * value)) :=
  d <- load l ;; ret (map_to_list d).

End Dict.

(* ===================================================================== *)
(** ** Helpers *)
(* ===================================================================== *)

(** [str(v)] for the one type the helpers apply it to. *)
Definition py_str_ObjectId (o : ObjectId) : value := VStr (Bson.str o).

Definition serialize_id (v : value) : value :=
  match v with
  | VObjectId o => py_str_ObjectId o
  | _ => v
  end.

(** The argument is [None] or a reference to a dict; so is the result. *)
Definition serialize_document (doc : option loc)
  : Py heap (option loc) :=
  match doc with
  | None => ret None
  | Some l =>
      n <- Dict.len l ;;
      if Nat.eqb n 0 then ret (Some l)
      else
        doc <- Dict.copy l ;;
        id <- Dict.get doc "_id" ;;
        (if is_None id then ret tt
         else v <- Dict.pop doc "_id" ;; Dict.setitem doc "id" (serialize_id v)) ;;
        kvs <- Dict.items doc ;;
        for_each kvs (λ '(k, v),
          match v with
          | VObjectId o => Dict.setitem doc k (py_str_ObjectId o)
          | _ => ret tt
          end) ;;
        ret (Some doc)
  end.

(** *** What [serialize_document] leaves in the copy *)

(** The rename of the identifier field, on the entries of a dict. *)
Definition rename_id (d : pydict) : pydict :=
  match d !! "_id" with
  | Some v => if is_None v then d else <["id" := serialize_id v]> (delete "_id" d)
  | None => d
  end.

(** The entries of the dict [serialize_document] returns for a non-empty
    dict with entries [d]. *)
Definition api_shape (d : pydict) : pydict :=
  serialize_id <$> rename_id d.

(** A dict with no [_id] and no identifier among its values: what the
    handlers hand to the store. *)
Definition plain (p : pydict) : Prop :=
  p !! "_id" = None ∧ ∀ k o, p !! k ≠ Some (VObjectId o).

(** One turn of the final loop, on the entries. *)
Definition stringify_entry (d : pydict) (kv : string * value)
  : pydict :=
  match kv.2 with
  | VObjectId o => <[kv.1 := py_str_ObjectId o]> d
  | _ => d
  end.


(* ===================================================================== *)
(** ** Numbers *)
(* ===================================================================== *)

Module Numeric.

(** [float(z)] for an [int]: the nearest binary64 number, ties to even;
    [None] stands for [OverflowError] (the nearest number is not finite). *)
Definition float_of_int (z : Z) : option float :=
  let f := SF2Prim (binary_normalize prec emax z 0 false) in
  if PrimFloat.is_infinity f then None else Some f.

(** [x * n] for a [float] and an [int]: the [int] is converted first. *)
Definition float_mul_int (x : float) (n : Z) : result float :=
  match float_of_int n with
  | Some y => Ok (PrimFloat.mul x y)
  | None => Raise (OverflowError "int too large to convert to float")
  end.

(** The nearest integer to [n / d] for [0 < d], ties to even. *)
Definition div_half_even (n d : Z) : Z :=
  let q := (n / d)%Z in
  match (2 * (n mod d) ?= d)%Z with
  | Lt => q
  | Gt => (q + 1)%Z
  | Eq => if Z.even q then q else (q + 1)%Z
  end.

(** The binary64 number nearest to [n / 100], with the sign [s]. *)
Definition hundredths (s : bool) (n : Z) : float :=
  match n with
  | Zpos p =>
      SF2Prim (SFdiv prec emax (S754_finite s p 0) (S754_finite false 100 0))
  | _ => SF2Prim (S754_zero s)
  end.

(** [round(x, 2)] for a [float]: the exact value of [x] is rounded to two
    decimals, ties to even, and the decimal is read back as the nearest
    [float]. A number with no fractional bits, a zero, an infinity and nan
    are returned as they are. *)
Definition float_round2 (x : float) : float :=
  match Prim2SF x with
  | S754_finite s m e =>
      if (0 <=? e)%Z then x
      else hundredths s (div_half_even (Zpos m * 100) (2 ^ (- e)))
  | _ => x
  end.

(** [round(v, 2)]: an [int] is its own rounding. *)
Definition round2 (v : value) : result value :=
  match v with
  | VFloat x => Ok (VFloat (float_round2 x))
  | VInt z => Ok (VInt z)
  | _ => Raise (TypeError "type doesn't define __round__ method")
  end.

(** [sum] adds floats one by one up to Python 3.11 and with Neumaier's
    compensation from Python 3.12 on. *)
Inductive summation := Plain | Compensated.

Definition plain_sum (acc : float) (xs : list float) : float :=
  foldl PrimFloat.add acc xs.

Fixpoint compensated_sum (f c : float) (xs : list float) : float :=
  match xs with
  | [] =>
      if negb (PrimFloat.eqb c 0) && PrimFloat.is_finite c
      then PrimFloat.add f c else f
  | x :: xs' =>
      let t := PrimFloat.add f x in
      let c' :=
        if PrimFloat.leb (PrimFloat.abs x) (PrimFloat.abs f)
        then PrimFloat.add c (PrimFloat.add (PrimFloat.sub f t) x)
        else PrimFloat.add c (PrimFloat.add (PrimFloat.sub x t) f) in
      compensated_sum t c' xs'
  end.

(** [sum(xs)] for floats [xs]: the start value is the [int] 0, so the
    empty sum is an [int] and the first float is added to [0.0]. *)
Definition py_sum (alg : summation) (xs : list float) : value :=
  match xs with
  | [] => VInt 0
  | x :: xs' =>
      let f := PrimFloat.add 0 x in
      VFloat match alg with
             | Plain => plain_sum f xs'
             | Compensated => compensated_sum f 0 xs'
             end
  end.

End Numeric.

(* ===================================================================== *)
(** ** Storage *)
(* ===================================================================== *)

(** The document store: named collections of documents in insertion
    order, and the supply of identifiers the store draws on for the
    insertions to come. A store whose supply is used up stands for one
    whose next insertion throws. *)
Record storage := {
  collections : gmap string (list pydict);
  identifiers : list ObjectId
}.

(** The module-level [db]: [None], or the handle of a live store. *)
Abbreviation world := (option storage).

Module Database.

Definition collection (st : storage) (name : string) : list pydict :=
  default [] (collections st !! name).

(** Modelled from the spec: the module [database], which defines [db], is
    not among the sources. The truth value of [db] decides
    [list_products]; the spec reads that test as "storage available". (A
    handle whose truth value cannot be taken, as the driver's own, is
    covered by [Routes.list_products_from], which takes the test as an
    argument.) *)
Definition truthy (w : world) : bool :=
  match w with Some _ => true | None => false end.

Definition db_is_None : Py world bool :=
  λ w, (Ok (match w with None => true | Some _ => false end), w).

Definition db_truthy : Py world bool := λ w, (Ok (truthy w), w).

(** A document as the store keeps it: the fields, and the identifier the
    store assigned under [_id]. *)
Definition with_id (oid : ObjectId) (data : pydict) : pydict :=
  <["_id" := VObjectId oid]> data.

(** The identifier of a stored document. *)
Definition doc_oid (doc : pydict) : option ObjectId :=
  match doc !! "_id" with
  | Some (VObjectId o) => Some o
  | _ => None
  end.

(** The identifiers in use, over all collections. *)
Definition stored_ids (st : storage) : list ObjectId :=
  '(_, docs) ← map_to_list (collections st); omap doc_oid docs.

(** Modelled from the spec: a "store-generated unique value". The store
    passes over the identifiers of its supply that a document already
    has. *)
Fixpoint skip_used (used ids : list ObjectId) : list ObjectId :=
  match ids with
  | [] => []
  | o :: rest => if bool_decide (o ∈ used) then skip_used used rest else ids
  end.

(** The identifier the store gives to the next document, and the supply
    it is left with; [None] when the store cannot take a document. *)
Definition assign (st : storage) : option (ObjectId * list ObjectId) :=
  match skip_used (stored_ids st) (identifiers st) with
  | [] => None
  | oid :: rest => Some (oid, rest)
  end.

(** Modelled from the spec: [database.create_document] is not among the
    sources. "insert(collectionName, documentBody) → identifier ...
    persists a new document with a store-generated identifier"; without a
    connection the operation fails, and so it does when the store has no
    identifier to give (the form an insertion that throws takes here).
    The identifier comes back as a string, which the handlers turn into an
    [ObjectId] again. *)
Definition create_document (collection_name : string) (data : pydict)
  : Py world string :=
  λ w, match w with
       | None => (Raise (StorageError "Database not available"), w)
       | Some st =>
           match assign st with
           | None => (Raise (StorageError "no identifier"), w)
           | Some (oid, rest) =>
               let doc := with_id oid data in
               (Ok (Bson.str oid),
                Some {| collections :=
                          <[collection_name := (collection st collection_name ++ [doc])%list]>
                            (collections st);
                        identifiers := rest |})
           end
       end.

(** Modelled from the spec: [database.get_documents] is not among the
    sources. "findMany(collectionName, filter) → sequence of documents",
    here with the empty filter. *)
Definition get_documents (collection_name : string) : Py world (list pydict) :=
  λ w, match w with
       | None => (Raise (StorageError "Database not available"), w)
       | Some st => (Ok (collection st collection_name), w)
       end.

(** The filter [{"_id": oid}] of the driver, [oid] given by its bytes:
    identifiers are equal when their bytes are. *)
Definition has_id (oid : list byte) (doc : pydict) : bool :=
  match doc !! "_id" with
  | Some (VObjectId o) => bool_decide (Bson.binary o = oid)
  | _ => false
  end.

(** The filter [{"_id": {"$in": oids}}] of the driver. *)
Definition has_id_in (oids : list (list byte)) (doc : pydict) : bool :=
  match doc !! "_id" with
  | Some (VObjectId o) => bool_decide (Bson.binary o ∈ oids)
  | _ => false
  end.

(** [db[name].find_one({"_id": oid})]: the first match, or [None]. *)
Definition find_one (collection_name : string) (oid : list byte)
  : Py world (option pydict) :=
  λ w, match w with
       | None => (Raise (TypeError "'NoneType' object is not subscriptable"), w)
       | Some st =>
           (Ok (head (List.filter (has_id oid) (collection st collection_name))), w)
       end.

(** [db[name].find({"_id": {"$in": oids}})]: the matches, in the order of
    the collection. *)
Definition find_in (collection_name : string) (oids : list (list byte))
  : Py world (list pydict) :=
  λ w, match w with
       | None => (Raise (TypeError "'NoneType' object is not subscriptable"), w)
       | Some st =>
           (Ok (List.filter (has_id_in oids) (collection st collection_name)), w)
       end.

End Database.

(* ===================================================================== *)
(** ** Request models *)
(* ===================================================================== *)

Definition optional_str (o : option string) : value :=
  match o with Some s => VStr s | None => VNone end.

Module ProductIn.
Record t := mk {
  title : string;
  description : option string;
  price : float;
  category : string;
  image : option string;
  in_stock : bool
}.

Definition model_dump (p : t) : pydict :=
  <["title" := VStr (title p)]> (
  <["description" := optional_str (description p)]> (
  <["price" := VFloat (price p)]> (
  <["category" := VStr (category p)]> (
  <["image" := optional_str (image p)]> (
  <["in_stock" := VBool (in_stock p)]> ∅))))).
End ProductIn.

Module OrderItemIn.
Record t := mk {
  product_id : string;
  title : string;
  price : float;
  quantity : Z;
  image : option string
}.

Definition model_dump (i : t) : pydict :=
  <["product_id" := VStr (product_id i)]> (
  <["title" := VStr (title i)]> (
  <["price" := VFloat (price i)]> (
  <["quantity" := VInt (quantity i)]> (
  <["image" := optional_str (image i)]> ∅)))).
End OrderItemIn.

Module OrderIn.
Record t := mk {
  customer_name : string;
  customer_email : string;
  shipping_address : string;
  items : list OrderItemIn.t
}.

(** The fields the model declares; any other key of a request body is
    dropped when the body is validated. *)
Definition model_fields : list string :=
  ["customer_name"; "customer_email"; "shipping_address"; "items"].
End OrderIn.

(* ===================================================================== *)
(** ** Routes *)
(* ===================================================================== *)

Module Routes.
Import Database.

(** The driver hands out every document as a dict object of its own, and
    a response carries the entries of the object the helper returns:
    [serialize_document] on a heap that holds the one argument. *)
Definition serialize_detached {S} (doc : option pydict) : Py S (option pydict) :=
  let '(arg, h) :=
    match doc with
    | Some d => (Some 1%positive, ({[1%positive := d]} : heap))
    | None => (None, (∅ : heap))
    end in
  match serialize_document arg h with
  | (Ok (Some l), h') =>
      match h' !! l with
      | Some d' => ret (Some d')
      | None => raise (TypeError "not a dict object")
      end
  | (Ok None, _) => ret None
  | (Raise e, _) => raise e
  end.

Definition value_of_doc (doc : option pydict) : value :=
  match doc with Some d => VDict d | None => VNone end.

(** [not doc] for a document or [None]. *)
Definition falsy (doc : option pydict) : bool :=
  match doc with
  | Some d => Nat.eqb (size d) 0
  | None => true
  end.

(** [ObjectId(s)] for a string [s], as the bytes it holds. *)
Definition ObjectId_of_str {S} (s : string) : Py S (list byte) :=
  match Bson.from_str s with
  | Some bs => ret bs
  | None => raise InvalidId
  end.

(** [try: m except Exception: raise e] *)
Definition try_except {S A} (m : Py S A) (e : exn) : Py S A :=
  λ s, match m s with
       | (Ok a, s') => (Ok a, s')
       | (Raise _, s') => (Raise e, s')
       end.

(** [list_products], over the two things it asks of the module
    [database]: the truth value of [db] and the read of the collection.
    The handler has no guard and no [try] around either. *)
Definition list_products_from (bool_db : Py world bool)
    (get_documents : string → Py world (list pydict)) : Py world value :=
  available <- bool_db ;;
  docs <- (if available then get_documents "product" else ret []) ;;
  out <- comprehension (λ d, serialize_detached (Some d)) docs ;;
  ret (VList (value_of_doc <$> out)).

Definition list_products : Py world value :=
  list_products_from db_truthy get_documents.

Definition get_product (product_id : string) : Py world value :=
  none <- db_is_None ;;
  if none then raise (HTTPException 500 "Database not available") else
  _id <- try_except (ObjectId_of_str product_id)
           (HTTPException 400 "Invalid product id") ;;
  doc <- find_one "product" _id ;;
  if falsy doc then raise (HTTPException 404 "Product not found") else
  out <- serialize_detached doc ;;
  ret (value_of_doc out).

Definition create_product (product : ProductIn.t) : Py world value :=
  none <- db_is_None ;;
  if none then raise (HTTPException 500 "Database not available") else
  new_id <- create_document "product" (ProductIn.model_dump product) ;;
  _id <- ObjectId_of_str new_id ;;
  doc <- find_one "product" _id ;;
  out <- serialize_detached doc ;;
  ret (value_of_doc out).

Definition sample_product (title description : string) (price : float)
    (category image : string) : pydict :=
  <["title" := VStr title]> (
  <["description" := VStr description]> (
  <["price" := VFloat price]> (
  <["category" := VStr category]> (
  <["image" := VStr image]> (
  <["in_stock" := VBool true]> ∅))))).

Definition sample : list pydict := [
  sample_product "Vintage Leather Backpack"
    "Handcrafted full-grain leather backpack with padded laptop sleeve."
    129.99 "Bags"
    "https://images.unsplash.com/photo-1514477917009-389c76a86b68?q=80&w=1200&auto=format&fit=crop";
  sample_product "Minimalist Watch"
    "Stainless steel case, sapphire glass, Japanese movement."
    89.0 "Accessories"
    "https://images.unsplash.com/photo-1511379938547-c1f69419868d?q=80&w=1200&auto=format&fit=crop";
  sample_product "Wireless Headphones"
    "Active noise cancellation with 30h battery life."
    159.0 "Audio"
    "https://images.unsplash.com/photo-1518443254571-1f1e5b2d1a1f?q=80&w=1200&auto=format&fit=crop";
  sample_product "Ceramic Mug"
    "Matte glaze 12oz mug, microwave and dishwasher safe."
    18.5 "Home"
    "https://images.unsplash.com/photo-1512100356356-de1b84283e18?q=80&w=1200&auto=format&fit=crop"
].

Definition seed_products : Py world value :=
  none <- db_is_None ;;
  if none then raise (HTTPException 500 "Database not available") else
  (* for p in sample: inserted.append(create_document("product", p)) *)
  inserted <- comprehension (create_document "product") sample ;;
  oids <- comprehension ObjectId_of_str inserted ;;
  docs <- find_in "product" oids ;;
  out <- comprehension (λ d, serialize_detached (Some d)) docs ;;
  ret (VList (value_of_doc <$> out)).

(** [i.price * max(1, i.quantity)] *)
Definition line_amount (i : OrderItemIn.t) : result float :=
  Numeric.float_mul_int (OrderItemIn.price i) (Z.max 1 (OrderItemIn.quantity i)).

(** The values of the generator [(i.price * max(1, i.quantity) for i in
    items)], as [sum] draws them. *)
Definition line_amounts (items : list OrderItemIn.t) : result (list float) :=
  results (line_amount <$> items).

Definition order_data (order : OrderIn.t) (total_amount : value) : pydict :=
  <["customer_name" := VStr (OrderIn.customer_name order)]> (
  <["customer_email" := VStr (OrderIn.customer_email order)]> (
  <["shipping_address" := VStr (OrderIn.shipping_address order)]> (
  <["items" := VList ((λ i, VDict (OrderItemIn.model_dump i)) <$> OrderIn.items order)]> (
  <["total_amount" := total_amount]> (
  <["status" := VStr "pending"]> ∅))))).

Definition create_order (alg : Numeric.summation) (order : OrderIn.t)
  : Py world value :=
  none <- db_is_None ;;
  if none then raise (HTTPException 500 "Database not available") else
  if bool_decide (OrderIn.items order = [])
  then raise (HTTPException 400 "Order must contain at least one item") else
  amounts <- lift (line_amounts (OrderIn.items order)) ;;
  let total := Numeric.py_sum alg amounts in
  total_amount <- lift (Numeric.round2 total) ;;
  new_id <- create_document "order" (order_data order total_amount) ;;
  _id <- ObjectId_of_str new_id ;;
  created <- find_one "order" _id ;;
  result <- serialize_detached created ;;
  match result with
  | Some d => ret (VDict (<["message" := VStr "Order placed successfully"]> d))
  | None => raise (TypeError "'NoneType' object does not support item assignment")
  end.

(** *** The responses *)

Inductive response := Response (status_code : nat) (content : value).

(** The body of the response to an [HTTPException]. *)
Definition detail (msg : string) : value := VDict {["detail" := VStr msg]}.

Definition status_of (r : response) : nat :=
  match r with Response code _ => code end.

(** What the framework sends when a request ends in an exception no
    handler is registered for. *)
Definition internal_server_error : response :=
  Response 500 (VStr "Internal Server Error").

(** A route declared with [status_code]: the value an endpoint returns is
    encoded as JSON and sent with that status; an [HTTPException] is sent
    with its own status and detail; any other exception, and a value the
    encoder refuses, is answered 500. What the endpoint did to the store
    before stays done. *)
Definition route (status_code : nat) (endpoint : Py world value)
  : world → response * world :=
  λ w, match endpoint w with
       | (Ok v, w') =>
           (if json_safe v then Response status_code v
            else internal_server_error, w')
       | (Raise (HTTPException code msg), w') =>
           (Response code (detail msg), w')
       | (Raise _, w') => (internal_server_error, w')
       end.

(** The total a response carries, and the total of the order stored
    last. *)
Definition returned_total (r : response) : option value :=
  match r with
  | Response _ (VDict d) => d !! "total_amount"
  | _ => None
  end.

Definition stored_total (w : world) : option value :=
  match w with
  | Some st =>
      match last (collection st "order") with
      | Some d => d !! "total_amount"
      | None => None
      end
  | None => None
  end.

(** What the route of [list_products] makes of the documents read. *)
Definition listing (docs : list pydict) : response :=
  if forallb (λ d, json_safe (VDict (api_shape d))) docs
  then Response 200 (VList ((λ d, VDict (api_shape d)) <$> docs))
  else internal_server_error.

Definition GET_api_products := route 200 list_products.
Definition GET_api_products_from (bool_db : Py world bool)
    (get_documents : string → Py world (list pydict)) :=
  route 200 (list_products_from bool_db get_documents).
Definition GET_api_product (product_id : string) := route 200 (get_product product_id).
Definition POST_api_products (product : ProductIn.t) := route 201 (create_product product).
Definition POST_api_seed := route 201 seed_products.
Definition POST_api_orders (alg : Numeric.summation) (order : OrderIn.t) :=
  route 201 (create_order alg order).

End Routes.

(* ===================================================================== *)
(** ** The total of an order, in the words of the specification *)
(* ===================================================================== *)

(** "total_amount = round(Σ over items of (item.price × max(1,
    item.quantity)), 2 decimal places)", read on binary64 numbers and
    written without the definitions of [Numeric] and [Routes], which the
    handler is compared with. *)
Module OrderSpec.

(** [max(1, quantity)]: the quantity, and 1 for a quantity below 1. *)
Definition units (quantity : Z) : Z :=
  if (quantity <? 1)%Z then 1%Z else quantity.

(** The amount of a line: the price times the binary64 number nearest to
    the units, which has to be finite. *)
Definition amount (price : float) (quantity : Z) (a : float) : Prop :=
  let y := SF2Prim (binary_normalize prec emax (units quantity) 0 false) in
  PrimFloat.is_infinity y = false ∧ a = PrimFloat.mul price y.

(** One step of the compensated sum: the running sum and the error it
    has lost so far. *)
Definition compensate (acc : float * float) (x : float) : float * float :=
  let '(f, c) := acc in
  let t := PrimFloat.add f x in
  (t, if PrimFloat.leb (PrimFloat.abs x) (PrimFloat.abs f)
      then PrimFloat.add c (PrimFloat.add (PrimFloat.sub f t) x)
      else PrimFloat.add c (PrimFloat.add (PrimFloat.sub x t) f)).

(** The sum of the amounts, from the left and from zero: one binary64
    addition per amount, or, from the second amount on, with the lost
    error carried along and added at the end when it is finite and not
    zero. *)
Definition summed (alg : Numeric.summation) (amounts : list float) (total : float)
  : Prop :=
  match alg with
  | Numeric.Plain => total = fold_left PrimFloat.add amounts 0%float
  | Numeric.Compensated =>
      match amounts with
      | [] => False
      | x :: rest =>
          let '(f, c) := fold_left compensate rest (PrimFloat.add 0 x, 0%float) in
          total = if PrimFloat.is_finite c && negb (PrimFloat.eqb c 0)
                  then PrimFloat.add f c else f
      end
  end.

(** The integer [n] is nearest to [100 * m / 2^k]: twice its distance to
    it is at most one, and is one only for an even [n] (a tie goes to the
    even neighbour). Both sides are scaled by [2^k]. *)
Definition nearest_cents (m : positive) (k : Z) (n : Z) : Prop :=
  let twice := (2 * Z.abs (100 * Z.pos m - n * 2 ^ k))%Z in
  (twice ≤ 2 ^ k)%Z ∧ (twice = 2 ^ k → Z.even n = true)%Z.

(** [n / 100], with a sign, as the nearest binary64 number. *)
Definition cents (negative : bool) (n : Z) : float :=
  match n with
  | Z.pos p =>
      SF2Prim (SFdiv prec emax (S754_finite negative p 0) (S754_finite false 100 0))
  | _ => SF2Prim (S754_zero negative)
  end.

(** [r] is [x] rounded to two decimal places: a number [m / 2^k] with
    fractional bits is the binary64 number nearest to [n / 100], for the
    integer [n] nearest to a hundred times it; any other number (an
    integer, a zero, an infinity, nan) is its own rounding. *)
Definition rounded_to_cents (x r : float) : Prop :=
  match Prim2SF x with
  | S754_finite negative m e =>
      if (e <? 0)%Z
      then ∃ n : Z, nearest_cents m (- e) n ∧ r = cents negative n
      else r = x
  | _ => r = x
  end.

End OrderSpec.

(* ===================================================================== *)
(** ** Sample data, for the concrete instances *)
(* ===================================================================== *)

Module Sample.

Definition oid1 : ObjectId :=
  Bson.mkObjectId [x65; x4a; x1b; x2c; x3d; x4e; x5f; x60; x71; x82; x93; xa4] I.
Definition oid2 : ObjectId :=
  Bson.mkObjectId [x65; x4a; x1b; x2c; x3d; x4e; x5f; x60; x71; x82; x93; xa5] I.

(** A stored product that also carries a reference to another document. *)
Definition stored_mug : pydict :=
  <["_id" := VObjectId oid1]> (<["title" := VStr "Ceramic Mug"]>
  (<["price" := VFloat 18.5]> (<["supplier" := VObjectId oid2]> ∅))).

(** The same product in its API shape. *)
Definition api_mug : pydict :=
  <["id" := VStr "654a1b2c3d4e5f60718293a4"]> (<["title" := VStr "Ceramic Mug"]>
  (<["price" := VFloat 18.5]> (<["supplier" := VStr "654a1b2c3d4e5f60718293a5"]> ∅))).

(** A document whose identifier field holds [None]. *)
Definition draft : pydict :=
  <["_id" := VNone]> (<["title" := VStr "Draft"]> ∅).

Definition oid3 : ObjectId :=
  Bson.mkObjectId [x65; x4a; x1b; x2c; x3d; x4e; x5f; x60; x71; x82; x93; xa6] I.
Definition oid4 : ObjectId :=
  Bson.mkObjectId [x65; x4a; x1b; x2c; x3d; x4e; x5f; x60; x71; x82; x93; xa7] I.
Definition oid5 : ObjectId :=
  Bson.mkObjectId [x65; x4a; x1b; x2c; x3d; x4e; x5f; x60; x71; x82; x93; xa8] I.
Definition oid6 : ObjectId :=
  Bson.mkObjectId [x65; x4a; x1b; x2c; x3d; x4e; x5f; x60; x71; x82; x93; xa9] I.

(** A store with one product and one order, about to assign [oid3] to
    [oid6]. *)
Definition shop : storage := {|
  collections :=
    <["product" := [stored_mug]]> (
    <["order" := [<["_id" := VObjectId oid2]> (<["total_amount" := VFloat 7.25]> ∅)]]> ∅);
  identifiers := [oid3; oid4; oid5; oid6]
|}.

Definition mug : ProductIn.t := {|
  ProductIn.title := "Ceramic Mug";
  ProductIn.description := None;
  ProductIn.price := 18.5;
  ProductIn.category := "Home";
  ProductIn.image := None;
  ProductIn.in_stock := true
|}.

(** A product whose price is not a finite number. *)
Definition priceless : ProductIn.t := {|
  ProductIn.title := "Meteorite";
  ProductIn.description := None;
  ProductIn.price := infinity;
  ProductIn.category := "Rocks";
  ProductIn.image := None;
  ProductIn.in_stock := true
|}.

(** A handle that has no truth value, as the driver's own. *)
Definition no_truth_value : Py world bool :=
  λ w, (Raise (NotImplementedError "Database objects do not implement bool()"), w).

(** A read of the store that throws. *)
Definition broken_read : string → Py world (list pydict) :=
  λ _ w, (Raise (StorageError "connection lost"), w).


Definition full_shop : storage := {|
  collections := collections shop;
  identifiers := []
|}.

Definition line (price : float) (quantity : Z) : OrderItemIn.t := {|
  OrderItemIn.product_id := "654a1b2c3d4e5f60718293a4";
  OrderItemIn.title := "Ceramic Mug";
  OrderItemIn.price := price;
  OrderItemIn.quantity := quantity;
  OrderItemIn.image := None
|}.

Definition order_of (name : string) (items : list OrderItemIn.t) : OrderIn.t := {|
  OrderIn.customer_name := name;
  OrderIn.customer_email := "ada@example.org";
  OrderIn.shipping_address := "1 Main Street";
  OrderIn.items := items
|}.

(** Two items: 10.00 twice and 5.50 once. *)
Definition order : OrderIn.t := order_of "Ada" [line 10 2; line 5.5 1].

Definition empty_order : OrderIn.t := order_of "Ada" [].

(** Two items that need the clamp and the rounding: 0.125 with quantity 0
    and 10.00 twice, 20.125 in all. *)
Definition odd_order : OrderIn.t := order_of "Ada" [line 0.125 0; line 10 2].

End Sample.

(* ===================================================================== *)
(** ** The liveness and diagnostic routes *)
(* ===================================================================== *)

Module Diagnostics.

(** An attribute of the handle: missing, present, or raising when it is
    read. An exception is kept as its text [str(e)], the one thing the
    route reads of it. *)
Inductive attribute :=
| Missing
| Has (s : string)
| Raises (message : string).

(** What [test_database] reads besides [db is not None]: the environment
    variable, [db.name], and what [db.list_collection_names()] does (the
    text of the exception it raises, or the names). *)
Record probe := {
  DATABASE_URL : option string;
  name : attribute;
  list_collection_names : string + list string
}.

(** A computation over the local dict [response] that returns or raises
    an exception with the given text. *)
Definition Probe (A : Type) : Type := pydict → (string + A) * pydict.

Definition pure {A} (a : A) : Probe A := λ d, (inr a, d).

Definition throw {A} (message : string) : Probe A := λ d, (inl message, d).

Definition and_then {A B} (m : Probe A) (k : A → Probe B) : Probe B :=
  λ d, match m d with
       | (inr a, d') => k a d'
       | (inl message, d') => (inl message, d')
       end.

(** [try: m except Exception as e: handler(str(e))] *)
Definition try_ (m : Probe unit) (handler : string → Probe unit) : Probe unit :=
  λ d, match m d with
       | (inr a, d') => (inr a, d')
       | (inl message, d') => handler message d'
       end.

(** [response[k] = v] *)
Definition assign (k : string) (v : value) : Probe unit :=
  λ d, (inr tt, <[k := v]> d).

(** [bool(os.getenv(...))]: set and not empty. *)
Definition getenv_truthy (v : option string) : bool :=
  match v with
  | Some s => negb (Nat.eqb (String.length s) 0)
  | None => false
  end.

(** [db.name if hasattr(db, 'name') else ...]: [hasattr] answers [False]
    for a missing attribute and lets any other exception through. *)
Definition name_or (p : probe) (default : string) : Probe value :=
  match name p with
  | Has s => pure (VStr s)
  | Missing => pure (VStr default)
  | Raises message => throw message
  end.

Definition call_list_collection_names (p : probe) : Probe (list string) :=
  match list_collection_names p with
  | inr names => pure names
  | inl message => throw message
  end.

Definition initial_response : pydict :=
  <["backend" := VStr "✅ Running"]> (
  <["database" := VStr "❌ Not Available"]> (
  <["database_url" := VNone]> (
  <["database_name" := VNone]> (
  <["connection_status" := VStr "Not Connected"]> (
  <["collections" := VList []]> ∅))))).

(** Whether a byte continues a character in UTF-8 ([10xxxxxx]). *)
Definition is_continuation (c : ascii) : bool :=
  let n := N_of_ascii c in (128 <=? n)%N && (n <? 192)%N.

(** [s[:n]]: the first [n] characters. A string is its UTF-8 encoding: a
    character is a byte that is not a continuation byte, together with
    the continuation bytes after it. *)
Fixpoint take_chars (n : nat) (s : string) : string :=
  match s with
  | "" => ""
  | String c rest =>
      if is_continuation c then String c (take_chars n rest)
      else match n with
           | 0 => ""
           | S n' => String c (take_chars n' rest)
           end
  end.

(** The guarded block of [test_database], run on the local dict. *)
Definition test_database_body (db_is_not_None : bool) (p : probe) : Probe unit :=
  try_
    (if db_is_not_None then
       and_then (assign "database" (VStr "✅ Available")) (λ _,
       and_then (assign "database_url"
                   (VStr (if getenv_truthy (DATABASE_URL p)
                          then "✅ Set" else "❌ Not Set"))) (λ _,
       and_then (name_or p "✅ Connected") (λ n,
       and_then (assign "database_name" n) (λ _,
       and_then (assign "connection_status" (VStr "Connected")) (λ _,
       try_
         (and_then (call_list_collection_names p) (λ collections,
          and_then (assign "collections" (VList (VStr <$> take 10 collections))) (λ _,
          assign "database" (VStr "✅ Connected & Working"))))
         (λ e, assign "database"
                 (VStr ("⚠️  Connected but Error: " ++ take_chars 50 e))))))))
     else pure tt)
    (λ e, assign "database" (VStr ("❌ Error: " ++ take_chars 50 e))).

(** The dict the route returns. *)
Definition test_database_response (w : world) (p : probe) : pydict :=
  (test_database_body (bool_decide (w ≠ None)) p initial_response).2.

Definition test_database (p : probe) : Py world value :=
  λ w, (Ok (VDict (test_database_response w p)), w).

Definition read_root : Py world value :=
  ret (VDict {["message" := VStr "Ecommerce backend is running"]}).

End Diagnostics.

(* ===================================================================== *)
(** ** The application *)
(* ===================================================================== *)

Module App.
Import Routes Diagnostics.

(** The requests the application routes, [GET /schema] apart (it reflects
    the schema classes through the framework). The probe of [GET /test]
    stands for what the environment and the driver answer at that time. *)
Inductive request :=
| Root
| Test (p : probe)
| ListProducts
| GetProduct (product_id : string)
| CreateProduct (product : ProductIn.t)
| Seed
| CreateOrder (order : OrderIn.t).

(** The routing table: one handler per method and path, with the status
    code of a success. *)
Definition handle (alg : Numeric.summation) (req : request)
  : world → response * world :=
  match req with
  | Root => route 200 read_root
  | Test p => route 200 (test_database p)
  | ListProducts => GET_api_products
  | GetProduct product_id => GET_api_product product_id
  | CreateProduct product => POST_api_products product
  | Seed => POST_api_seed
  | CreateOrder order => POST_api_orders alg order
  end.

(** The requests sent with [GET]. *)
Definition is_read (req : request) : bool :=
  match req with
  | Root | Test _ | ListProducts | GetProduct _ => true
  | CreateProduct _ | Seed | CreateOrder _ => false
  end.

(** The routes that raise 500 when [db is None]. *)
Definition needs_storage (req : request) : bool :=
  match req with
  | GetProduct _ | CreateProduct _ | Seed | CreateOrder _ => true
  | Root | Test _ | ListProducts => false
  end.

(** The catalog as [POST /api/seed] returns it for the identifiers
    [ids]. *)
Definition seeded (ids : list ObjectId) : list value :=
  zip_with (λ o p, VDict (<["id" := VStr (Bson.str o)]> p)) ids sample.

(** Requests served one after the other. *)
Fixpoint serve (alg : Numeric.summation) (reqs : list request) (w : world)
  : list response * world :=
  match reqs with
  | [] => ([], w)
  | req :: reqs' =>
      let '(r, w') := handle alg req w in
      let '(rs, w'') := serve alg reqs' w' in
      (r :: rs, w'')
  end.

End App.

(* ===================================================================== *)
(** ** What the store keeps *)
(* ===================================================================== *)

Module Invariant.
Import Database.

(** A store in order: the identifiers to come are distinct and none is in
    use; within a collection no identifier occurs twice; every document
    has an identifier. *)
Record store_ok (st : storage) : Prop := {
  ok_supply : NoDup (identifiers st);
  ok_fresh : ∀ o, o ∈ identifiers st → o ∉ stored_ids st;
  ok_unique : ∀ c, NoDup (omap doc_oid (collection st c));
  ok_ids : ∀ c d, d ∈ collection st c → is_Some (doc_oid d)
}.

(** The same, as a test. *)
Definition store_okb (st : storage) : bool :=
  bool_decide (NoDup (identifiers st))
  && forallb (λ o, bool_decide (o ∉ stored_ids st)) (identifiers st)
  && forallb (λ cd : string * list pydict,
                bool_decide (NoDup (omap doc_oid cd.2))
                && forallb (λ d, bool_decide (is_Some (doc_oid d))) cd.2)
       (map_to_list (collections st)).

(** A later state of an insert-only store: every collection has the old
    one as a prefix, and the identifiers to come are what is left of the
    old ones. *)
Definition grows (st st' : storage) : Prop :=
  (∀ c, collection st c `prefix_of` collection st' c)
  ∧ identifiers st' `suffix_of` identifiers st.

(** The state an insertion leaves. *)
Definition inserted (c : string) (o : ObjectId) (data : pydict) (rest : list ObjectId)
    (st : storage) : storage :=
  {| collections := <[c := (collection st c ++ [with_id o data])%list]> (collections st);
     identifiers := rest |}.

(** A step of the store: it grows, and stays in order if it was. *)
Definition evolves (st st' : storage) : Prop :=
  grows st st' ∧ (store_ok st → store_ok st').

(** A computation that, run with storage, leaves storage in place and
    evolved, whether it returns or raises. *)
Definition steps {A} (m : Py world A) : Prop :=
  ∀ st, ∃ r st', m (Some st) = (r, Some st') ∧ evolves st st'.

End Invariant.

(* ===================================================================== *)
(** ** More sample data *)
(* ===================================================================== *)

Module Sample2.
Import Diagnostics.

Definition oid7 : ObjectId :=
  Bson.mkObjectId [x65; x4a; x1b; x2c; x3d; x4e; x5f; x60; x71; x82; x93; xaa] I.
Definition oid8 : ObjectId :=
  Bson.mkObjectId [x65; x4a; x1b; x2c; x3d; x4e; x5f; x60; x71; x82; x93; xab] I.
Definition oid9 : ObjectId :=
  Bson.mkObjectId [x65; x4a; x1b; x2c; x3d; x4e; x5f; x60; x71; x82; x93; xac] I.
Definition oid10 : ObjectId :=
  Bson.mkObjectId [x65; x4a; x1b; x2c; x3d; x4e; x5f; x60; x71; x82; x93; xad] I.

(** The sample shop with eight identifiers to come. *)
Definition warehouse : storage := {|
  collections := collections Sample.shop;
  identifiers := identifiers Sample.shop ++ [oid7; oid8; oid9; oid10]
|}.

(** A document keyed by a string, with a list that holds an identifier. *)
Definition legacy : pydict :=
  <["_id" := VStr "sku-1"]> (<["refs" := VList [VObjectId Sample.oid1]]> ∅).

(** A driver that lists twelve collections. *)
Definition busy : probe := {|
  DATABASE_URL := Some "mongodb://localhost";
  name := Has "shop";
  list_collection_names :=
    inr ["a"; "b"; "c"; "d"; "e"; "f"; "g"; "h"; "i"; "j"; "k"; "l"]
|}.

(** An order for one item with a quantity whose float would be
    infinite. *)
Definition huge_order : OrderIn.t :=
  Sample.order_of "Ada" [Sample.line 1 (2 ^ 1024)].

(** The sample order with a second line of quantity -3 in place of 1. *)
Definition negative_order : OrderIn.t :=
  Sample.order_of "Ada" [Sample.line 10 2; Sample.line 5.5 (-3)].

End Sample2.

(* ===================================================================== *)
(** * Properties *)
(* ===================================================================== *)

(** ** Object identifiers *)

Module BsonFacts.
Import Bson.

Lemma hex_value_hi (b : byte) :
  hex_value (hex_digit (Byte.to_N b / 16)) = Some (Byte.to_N b / 16)%N.
Proof. destruct b; reflexivity. Qed.

Lemma hex_value_lo (b : byte) :
  hex_value (hex_digit (Byte.to_N b mod 16)) = Some (Byte.to_N b mod 16)%N.
Proof. destruct b; reflexivity. Qed.

Lemma byte_of_nibbles (b : byte) :
  Byte.of_N (16 * (Byte.to_N b / 16) + Byte.to_N b mod 16) = Some b.
Proof. destruct b; reflexivity. Qed.

Lemma is_space_hi (b : byte) : is_space (hex_digit (Byte.to_N b / 16)) = false.
Proof. destruct b; reflexivity. Qed.

Lemma fromhex_hexlify (bs : list byte) : fromhex (hexlify bs) = Some bs.
Proof.
  induction bs as [|b bs IH]; [reflexivity|].
  simpl. rewrite is_space_hi, hex_value_hi, hex_value_lo, IH, byte_of_nibbles.
  reflexivity.
Qed.

Lemma length_hexlify (bs : list byte) :
  String.length (hexlify bs) = 2 * length bs.
Proof. induction bs as [|b bs IH]; simpl; [reflexivity|]. rewrite IH. lia. Qed.

Lemma of_binary_binary (o : ObjectId) : of_binary (binary o) = Some o.
Proof.
  unfold of_binary. destruct (decide _) as [H|N].
  - f_equal. by apply ObjectId_eq.
  - destruct N. apply (binary_len o).
Qed.

Lemma length_binary (o : ObjectId) : length (binary o) = 12.
Proof. apply Nat.eqb_eq, Is_true_true, (binary_len o). Qed.

Lemma length_str (o : ObjectId) : String.length (str o) = 24.
Proof. unfold str. rewrite length_hexlify, length_binary. reflexivity. Qed.

(** Reading back the string form gives the bytes of the identifier. *)
Lemma from_str_str (o : ObjectId) : from_str (str o) = Some (binary o).
Proof.
  unfold from_str. rewrite length_str. simpl.
  unfold str. apply fromhex_hexlify.
Qed.

Lemma str_inj (o1 o2 : ObjectId) : str o1 = str o2 → o1 = o2.
Proof.
  intros E. apply ObjectId_eq.
  assert (Some (binary o1) = Some (binary o2)) as [= ->]; [|reflexivity].
  rewrite <- !from_str_str. by rewrite E.
Qed.

Lemma str_nonempty (o : ObjectId) : str o ≠ "".
Proof. intros E. pose proof (length_str o) as L. rewrite E in L. discriminate. Qed.

End BsonFacts.

(** ** Dict objects and [serialize_document] *)

Section DictLemmas.
Context (l : loc) (d : pydict) (h : heap).

Lemma load_insert : Dict.load l (<[l := d]> h) = (Ok d, <[l := d]> h).
Proof. unfold Dict.load. by rewrite lookup_insert_eq. Qed.

Lemma get_insert k :
  Dict.get l k (<[l := d]> h) = (Ok (default VNone (d !! k)), <[l := d]> h).
Proof. unfold Dict.get, bind. by rewrite load_insert. Qed.

Lemma pop_insert k v :
  d !! k = Some v →
  Dict.pop l k (<[l := d]> h) = (Ok v, <[l := delete k d]> h).
Proof.
  intros Hk. unfold Dict.pop, bind. rewrite load_insert, Hk.
  unfold Dict.store, ret. by rewrite insert_insert_eq.
Qed.

Lemma setitem_insert k v :
  Dict.setitem l k v (<[l := d]> h) = (Ok tt, <[l := <[k := v]> d]> h).
Proof.
  unfold Dict.setitem, bind. rewrite load_insert.
  unfold Dict.store. by rewrite insert_insert_eq.
Qed.

Lemma items_insert :
  Dict.items l (<[l := d]> h) = (Ok (map_to_list d), <[l := d]> h).
Proof. unfold Dict.items, bind. by rewrite load_insert. Qed.
End DictLemmas.

Lemma stringify_loop (l : loc) (h : heap)
    (kvs : list (string * value)) (d : pydict) :
  for_each kvs (λ '(k, v),
      match v with
      | VObjectId o => Dict.setitem l k (py_str_ObjectId o)
      | _ => ret tt
      end) (<[l := d]> h)
  = (Ok tt, <[l := foldl stringify_entry d kvs]> h).
Proof.
  revert d. induction kvs as [|[k v] kvs IH]; intros d; [reflexivity|].
  simpl. unfold bind at 1.
  destruct v; unfold stringify_entry at 2; simpl; try apply IH.
  rewrite setitem_insert. apply IH.
Qed.

Lemma foldl_stringify_lookup (kvs : list (string * value)) (d : pydict) k :
  NoDup kvs.*1 →
  foldl stringify_entry d kvs !! k
  = match (list_to_map kvs : pydict) !! k with
    | Some (VObjectId o) => Some (py_str_ObjectId o)
    | _ => d !! k
    end.
Proof.
  revert d. induction kvs as [|[k0 v0] kvs IH]; intros d Hnd; [reflexivity|].
  apply NoDup_cons in Hnd as [Hk0 Hnd]. simpl. rewrite IH by done.
  destruct (decide (k0 = k)) as [->|Hne].
  - rewrite lookup_insert_eq.
    rewrite (not_elem_of_list_to_map_1 kvs k) by done.
    unfold stringify_entry; destruct v0; simpl; try done.
    by rewrite lookup_insert_eq.
  - rewrite lookup_insert_ne by done.
    destruct (list_to_map kvs !! k) as [[]|] eqn:E; try done;
      unfold stringify_entry; destruct v0; simpl; try done;
      by rewrite lookup_insert_ne.
Qed.

Lemma foldl_stringify (d : pydict) :
  foldl stringify_entry d (map_to_list d) = serialize_id <$> d.
Proof.
  apply map_eq; intros k.
  rewrite foldl_stringify_lookup by apply NoDup_fst_map_to_list.
  rewrite list_to_map_to_list, lookup_fmap.
  by destruct (d !! k) as [[]|].
Qed.

(** The run of [serialize_document] on a non-empty dict: one new object,
    holding [api_shape d]; nothing else in the heap changes. *)
Lemma serialize_document_run (h : heap) (l : loc)
    (d : pydict) :
  h !! l = Some d → size d ≠ 0 →
  serialize_document (Some l) h
  = (Ok (Some (fresh (dom h))), <[fresh (dom h) := api_shape d]> h).
Proof.
  intros Hl Hne. unfold serialize_document.
  unfold bind at 1. unfold Dict.len, bind at 1. unfold Dict.load at 1.
  rewrite Hl. unfold ret at 1.
  destruct (Nat.eqb_spec (size d) 0) as [|_]; [done|].
  unfold bind at 1. unfold Dict.copy, bind at 1. unfold Dict.load at 1.
  rewrite Hl. unfold Dict.new. set (l' := fresh (dom h)).
  unfold bind at 1. rewrite get_insert.
  assert (∃ d1, d1 = rename_id d ∧
    (if is_None (default VNone (d !! "_id")) then ret tt
     else v <- Dict.pop l' "_id" ;; Dict.setitem l' "id" (serialize_id v))
      (<[l' := d]> h) = (Ok tt, <[l' := d1]> h)) as (d1 & Hd1 & Hrun).
  { unfold rename_id. destruct (d !! "_id") as [v|] eqn:Hid; simpl.
    - destruct (is_None v); [by eexists|].
      eexists; split; [done|].
      unfold bind. rewrite (pop_insert _ _ _ _ v) by done.
      by rewrite setitem_insert.
    - by eexists. }
  unfold bind at 1. rewrite Hrun.
  unfold bind at 1. rewrite items_insert.
  unfold bind at 1. rewrite stringify_loop.
  unfold ret, api_shape. by rewrite foldl_stringify, Hd1.
Qed.

(** ** The serialization helper *)

Lemma size_pos_lookup (d : pydict) k v : d !! k = Some v → size d ≠ 0.
Proof. intros Hk Hs. apply map_size_empty_iff in Hs. by rewrite Hs in Hk. Qed.

Lemma fresh_heap (h : heap) : h !! fresh (dom h) = None.
Proof. apply not_elem_of_dom, is_fresh. Qed.

Lemma lookup_api_shape_other (d : pydict) k :
  d !! "_id" ≠ Some VNone → k ≠ "_id" → k ≠ "id" →
  api_shape d !! k = serialize_id <$> d !! k.
Proof.
  intros Hnn H1 H2. unfold api_shape, rename_id. rewrite lookup_fmap.
  destruct (d !! "_id") as [v|]; [|done].
  destruct (is_None v); [done|].
  by rewrite lookup_insert_ne, lookup_delete_ne.
Qed.

Lemma serialize_document_empty (h : heap) (l : loc) :
  h !! l = Some ∅ → serialize_document (Some l) h = (Ok (Some l), h).
Proof.
  intros Hl. unfold serialize_document, bind, Dict.len, bind, Dict.load.
  rewrite Hl. reflexivity.
Qed.

(** C7. For a stored document (its [_id] is an object identifier) the
    helper returns a new dict object: the heap is the old one plus that
    object, so the argument is not mutated; the new dict has [id] equal to
    the string form of [_id], has no [_id], has every other top-level
    identifier value replaced by its string form and every remaining field
    as in the argument. [None] and the empty dict are returned as they
    are, in an unchanged heap. *)
Theorem serialize_document_api_shape :
  (∀ (h : heap) (l : loc) (d : pydict) (o : ObjectId),
      h !! l = Some d → d !! "_id" = Some (VObjectId o) →
      ∃ (l' : loc) (d' : pydict),
        serialize_document (Some l) h = (Ok (Some l'), <[l' := d']> h)
        ∧ h !! l' = None
        ∧ <[l' := d']> h !! l = Some d
        ∧ d' !! "id" = Some (VStr (Bson.str o))
        ∧ d' !! "_id" = None
        ∧ (∀ k o', k ≠ "_id" → k ≠ "id" → d !! k = Some (VObjectId o') →
             d' !! k = Some (VStr (Bson.str o')))
        ∧ (∀ k, k ≠ "_id" → k ≠ "id" →
             isinstance_ObjectId <$> d !! k ≠ Some true → d' !! k = d !! k))
  ∧ (∀ h : heap, serialize_document None h = (Ok None, h))
  ∧ (∀ (h : heap) (l : loc),
      h !! l = Some ∅ → serialize_document (Some l) h = (Ok (Some l), h)).
Proof.
  split; [|split].
  - intros h l d o Hl Hid.
    exists (fresh (dom h)), (api_shape d).
    pose proof (fresh_heap h) as Hfresh.
    split; [apply serialize_document_run; eauto using size_pos_lookup|].
    split; [done|].
    split; [rewrite lookup_insert_ne; [done|congruence]|].
    assert (d !! "_id" ≠ Some VNone) as Hnn by congruence.
    split; [|split; [|split]].
    + unfold api_shape, rename_id. rewrite Hid. simpl.
      by rewrite lookup_fmap, lookup_insert_eq.
    + unfold api_shape, rename_id. rewrite Hid. simpl.
      by rewrite lookup_fmap, lookup_insert_ne, lookup_delete_eq.
    + intros k o' H1 H2 Hk. rewrite lookup_api_shape_other by done.
      by rewrite Hk.
    + intros k H1 H2 Hk. rewrite lookup_api_shape_other by done.
      destruct (d !! k) as [[]|]; simpl in *; congruence.
  - reflexivity.
  - apply serialize_document_empty.
Qed.

Lemma serialize_document_api_shape_witness :
  (∃ (l' : loc) (d' : pydict),
      serialize_document (Some 1%positive) {[1%positive := Sample.stored_mug]}
      = (Ok (Some l'), <[l' := d']> {[1%positive := Sample.stored_mug]})
      ∧ d' !! "id" = Some (VStr "654a1b2c3d4e5f60718293a4")
      ∧ d' !! "_id" = None
      ∧ d' !! "supplier" = Some (VStr "654a1b2c3d4e5f60718293a5")
      ∧ d' !! "title" = Some (VStr "Ceramic Mug"))
  ∧ serialize_document (Some 1%positive) {[1%positive := ∅]}
    = (Ok (Some 1%positive), {[1%positive := ∅]}).
Proof.
  destruct serialize_document_api_shape as (Hdoc & _ & Hempty).
  split.
  - destruct (Hdoc {[1%positive := Sample.stored_mug]} 1%positive
                Sample.stored_mug Sample.oid1)
      as (l' & d' & Hrun & _ & _ & Hid & Hno & Hoid & Hrest);
      [reflexivity | reflexivity |].
    exists l', d'. split; [exact Hrun|]. split; [exact Hid|]. split; [exact Hno|].
    split.
    + apply (Hoid "supplier" Sample.oid2); [discriminate | discriminate | reflexivity].
    + rewrite (Hrest "title"); [reflexivity | discriminate | discriminate |].
      vm_compute. discriminate.
  - apply Hempty. reflexivity.
Defined.

(** C8. A document that has [id] as a string, no [_id] and no top-level
    identifier value is serialized to a dict with the same entries. *)
Theorem serialize_document_idempotent (h : heap) (l : loc) (d : pydict) (s : string) :
  h !! l = Some d →
  d !! "id" = Some (VStr s) →
  d !! "_id" = None →
  (∀ k o, d !! k ≠ Some (VObjectId o)) →
  ∃ l' : loc,
    serialize_document (Some l) h = (Ok (Some l'), <[l' := d]> h).
Proof.
  intros Hl Hid Hno Hoid. exists (fresh (dom h)).
  rewrite (serialize_document_run h l d) by eauto using size_pos_lookup.
  do 2 f_equal. unfold api_shape, rename_id. rewrite Hno.
  apply map_eq; intros k. rewrite lookup_fmap.
  specialize (Hoid k). destruct (d !! k) as [[]|]; simpl; congruence.
Qed.

Lemma serialize_document_idempotent_witness :
  ∃ l' : loc,
    serialize_document (Some 1%positive) {[1%positive := Sample.api_mug]}
    = (Ok (Some l'), <[l' := Sample.api_mug]> {[1%positive := Sample.api_mug]}).
Proof.
  apply (serialize_document_idempotent _ _ _ "654a1b2c3d4e5f60718293a4");
    [reflexivity | reflexivity | reflexivity |].
  intros k o. unfold Sample.api_mug.
  repeat (rewrite lookup_insert; case_decide; [discriminate|]).
  rewrite lookup_empty. discriminate.
Defined.

(** C10. When [_id] is present with value [None] there is no rename: the
    returned dict keeps [_id] with [None], has the keys of the argument
    (so no [id] is added), and differs from the argument only in that
    top-level identifier values are replaced by their string form. *)
Theorem serialize_document_None_id (h : heap) (l : loc) (d : pydict) :
  h !! l = Some d →
  d !! "_id" = Some VNone →
  ∃ (l' : loc) (d' : pydict),
    serialize_document (Some l) h = (Ok (Some l'), <[l' := d']> h)
    ∧ d' !! "_id" = Some VNone
    ∧ dom d' = dom d
    ∧ (d !! "id" = None → d' !! "id" = None)
    ∧ (∀ k, d' !! k = serialize_id <$> d !! k).
Proof.
  intros Hl Hid. exists (fresh (dom h)), (api_shape d).
  split; [apply serialize_document_run; eauto using size_pos_lookup|].
  assert (api_shape d = serialize_id <$> d) as ->.
  { unfold api_shape, rename_id. by rewrite Hid. }
  split; [by rewrite lookup_fmap, Hid|].
  split; [by rewrite dom_fmap_L|].
  split; [intros Hn; by rewrite lookup_fmap, Hn|].
  intros k. by rewrite lookup_fmap.
Qed.

Lemma serialize_document_None_id_witness :
  ∃ (l' : loc) (d' : pydict),
    serialize_document (Some 1%positive) {[1%positive := Sample.draft]}
    = (Ok (Some l'), <[l' := d']> {[1%positive := Sample.draft]})
    ∧ d' !! "_id" = Some VNone
    ∧ dom d' = dom Sample.draft
    ∧ (Sample.draft !! "id" = None → d' !! "id" = None)
    ∧ (∀ k, d' !! k = serialize_id <$> Sample.draft !! k).
Proof.
  apply (serialize_document_None_id {[1%positive := Sample.draft]} 1%positive);
    reflexivity.
Defined.




(* ===================================================================== *)
(** ** Routes *)
(* ===================================================================== *)

Import Database Routes.

(** *** Serialization of what the driver returns *)

Lemma api_shape_empty : api_shape ∅ = ∅.
Proof. unfold api_shape, rename_id. by rewrite lookup_empty, fmap_empty. Qed.

Lemma serialize_detached_run {S} (doc : option pydict) (s : S) :
  serialize_detached doc s = (Ok (api_shape <$> doc), s).
Proof.
  destruct doc as [d|]; [|reflexivity].
  unfold serialize_detached.
  destruct (decide (size d = 0)) as [Hz|Hnz].
  - apply map_size_empty_iff in Hz as ->.
    rewrite serialize_document_empty by apply lookup_singleton_eq.
    rewrite lookup_singleton_eq. simpl. by rewrite api_shape_empty.
  - rewrite (serialize_document_run _ _ d) by (done || apply lookup_singleton_eq).
    by rewrite lookup_insert_eq.
Qed.

Lemma serialize_all_run {S} (docs : list pydict) (s : S) :
  comprehension (λ d, serialize_detached (Some d)) docs s
  = (Ok ((λ d, Some (api_shape d)) <$> docs), s).
Proof.
  induction docs as [|d docs IH]; [reflexivity|].
  simpl. unfold bind at 1. rewrite serialize_detached_run. simpl.
  unfold bind at 1. by rewrite IH.
Qed.

(** *** What the encoder takes *)

Lemma json_safe_dict (d : pydict) :
  json_safe (VDict d) = true ↔ ∀ k v, d !! k = Some v → json_safe v = true.
Proof.
  simpl. induction d as [|k v d Hk Hfold IH] using map_first_key_ind.
  - rewrite map_fold_empty. split; [intros _ k v; by rewrite lookup_empty|done].
  - rewrite map_fold_insert_first_key by done. rewrite andb_true_iff, IH. split.
    + intros [Hv Hd] k' v'. rewrite lookup_insert. case_decide; [by intros [= <-]|eauto].
    + intros H. split; [apply (H k); by rewrite lookup_insert_eq|].
      intros k' v' Hk'. apply (H k'). rewrite lookup_insert_ne; [done|congruence].
Qed.

Lemma json_safe_list (l : list value) :
  json_safe (VList l) = true ↔ ∀ v, v ∈ l → json_safe v = true.
Proof.
  simpl. rewrite forallb_forall. split; intros H v Hv; apply H; by apply list_elem_of_In.
Qed.

Lemma json_safe_empty : json_safe (VDict ∅) = true.
Proof. apply json_safe_dict. intros k v. by rewrite lookup_empty. Qed.

Lemma json_safe_insert (k : string) (v : value) (d : pydict) :
  json_safe v = true → json_safe (VDict d) = true →
  json_safe (VDict (<[k := v]> d)) = true.
Proof.
  rewrite !json_safe_dict. intros Hv Hd k' v'. rewrite lookup_insert.
  case_decide; [by intros [= <-]|apply Hd].
Qed.

(** An entry the encoder refuses makes it refuse the dict. *)
Lemma json_safe_lookup (d : pydict) (k : string) (v : value) :
  d !! k = Some v → json_safe v = false → json_safe (VDict d) = false.
Proof.
  intros Hk Hv. apply not_true_is_false. rewrite json_safe_dict.
  intros H. specialize (H k v Hk). congruence.
Qed.

Lemma json_safe_optional_str (o : option string) : json_safe (optional_str o) = true.
Proof. by destruct o. Qed.

Lemma json_safe_strs (l : list string) : json_safe (VList (VStr <$> l)) = true.
Proof. apply json_safe_list. by intros v (s & -> & _)%list_elem_of_fmap. Qed.

Lemma json_safe_listing (docs : list pydict) :
  json_safe (VList ((λ d, VDict (api_shape d)) <$> docs))
  = forallb (λ d, json_safe (VDict (api_shape d))) docs.
Proof.
  change (json_safe (VList ?l)) with (forallb json_safe l).
  induction docs as [|d docs IH]; [done|]. rewrite fmap_cons. simpl in *. by rewrite IH.
Qed.

Lemma list_products_from_run (read : string → Py world (list pydict)) (st : storage) :
  GET_api_products_from db_truthy read (Some st)
  = match read "product" (Some st) with
    | (Ok docs, w') => (listing docs, w')
    | (Raise (HTTPException code msg), w') => (Response code (detail msg), w')
    | (Raise _, w') => (internal_server_error, w')
    end.
Proof.
  unfold GET_api_products_from, route, list_products_from.
  unfold bind at 1. unfold db_truthy. cbn [truthy].
  unfold bind at 1. destruct (read "product" (Some st)) as [[docs|e] w']; [|done].
  unfold bind at 1. rewrite serialize_all_run. unfold ret.
  rewrite <- list_fmap_compose. unfold listing.
  change (value_of_doc ∘ (λ d, Some (api_shape d))) with (λ d, VDict (api_shape d)).
  by rewrite json_safe_listing.
Qed.

Lemma list_products_run (st : storage) :
  GET_api_products (Some st) = (listing (collection st "product"), Some st).
Proof. apply (list_products_from_run get_documents). Qed.

(** C9, as the code has it. Without storage [GET /api/products] answers
    200 with the empty list, whatever the read would do. With storage it
    leaves the store as it is and answers 200 with the documents of the
    product collection, in order, each in the shape [serialize_document]
    gives it ([api_shape], by [serialize_document_run]), when the encoder
    takes every one of them, and 500 when it refuses one. A read of the
    store that throws is answered 500 as well, and so is a handle whose
    truth value cannot be taken: the handler has no guard around
    either. *)
Theorem list_products_total :
  (∀ read, GET_api_products_from db_truthy read None = (Response 200 (VList []), None))
  ∧ GET_api_products None = (Response 200 (VList []), None)
  ∧ (∀ st : storage,
       GET_api_products (Some st)
       = (if forallb (λ d, json_safe (VDict (api_shape d))) (collection st "product")
          then Response 200
                 (VList ((λ d, VDict (api_shape d)) <$> collection st "product"))
          else Response 500 (VStr "Internal Server Error"),
          Some st))
  ∧ (∀ (read : string → Py world (list pydict)) (st : storage) (message : string)
       (w' : world),
       read "product" (Some st) = (Raise (StorageError message), w') →
       GET_api_products_from db_truthy read (Some st)
       = (Response 500 (VStr "Internal Server Error"), w'))
  ∧ (∀ (bool_db : Py world bool) (read : string → Py world (list pydict))
       (w w' : world) (message : string),
       bool_db w = (Raise (NotImplementedError message), w') →
       GET_api_products_from bool_db read w
       = (Response 500 (VStr "Internal Server Error"), w')).
Proof.
  split; [done|]. split; [done|]. split; [|split].
  - intros st. apply list_products_run.
  - intros read st message w' Hread. by rewrite list_products_from_run, Hread.
  - intros bool_db read w w' message Hbool.
    unfold GET_api_products_from, route, list_products_from, bind. by rewrite Hbool.
Qed.

Lemma list_products_total_witness :
  GET_api_products_from db_truthy Sample.broken_read (Some Sample.shop)
  = (Response 500 (VStr "Internal Server Error"), Some Sample.shop)
  ∧ GET_api_products_from Sample.no_truth_value get_documents (Some Sample.shop)
    = (Response 500 (VStr "Internal Server Error"), Some Sample.shop).
Proof.
  destruct list_products_total as (_ & _ & _ & Hthrows & Hbool).
  split.
  - apply (Hthrows Sample.broken_read Sample.shop "connection lost" (Some Sample.shop)).
    reflexivity.
  - apply (Hbool Sample.no_truth_value get_documents (Some Sample.shop)
             (Some Sample.shop) "Database objects do not implement bool()").
    reflexivity.
Defined.

(** C9, as stated, fails: a product whose price is not a finite number
    can be posted (the post is answered 500, the document stays), and from
    then on the list is answered 500. *)
Lemma list_products_unencodable :
  ∃ st' : storage,
    POST_api_products Sample.priceless (Some Sample.shop)
    = (Response 500 (VStr "Internal Server Error"), Some st')
    ∧ length (collection st' "product") = 2
    ∧ GET_api_products (Some st')
      = (Response 500 (VStr "Internal Server Error"), Some st')
    ∧ status_of (GET_api_products (Some st')).1 ≠ 200.
Proof.
  eexists. split; [vm_compute; reflexivity|].
  split; [reflexivity|]. split; [vm_compute; reflexivity|].
  vm_compute. discriminate.
Qed.

(** *** Reading one product *)

Lemma has_id_nonempty bs (d : pydict) : has_id bs d = true → Nat.eqb (size d) 0 = false.
Proof.
  unfold has_id. intros H.
  destruct (d !! "_id") as [v|] eqn:E; [|done].
  apply Nat.eqb_neq. eauto using size_pos_lookup.
Qed.

Lemma head_filter_Some {A} (P : A → bool) (l : list A) x :
  head (List.filter P l) = Some x → P x = true.
Proof.
  induction l as [|a l IH]; simpl; [done|].
  destruct (P a) eqn:E; simpl; [by intros [= <-]|done].
Qed.

Lemma head_filter_None {A} (P : A → bool) (l : list A) :
  head (List.filter P l) = None ↔ ∀ x, x ∈ l → P x = false.
Proof.
  induction l as [|a l IH]; simpl.
  - split; [intros _ x Hx; by apply elem_of_nil in Hx|done].
  - destruct (P a) eqn:E; simpl.
    + split; [done|]. intros H. specialize (H a (list_elem_of_here _ _)). congruence.
    + rewrite IH. split.
      * intros H x Hx. apply elem_of_cons in Hx as [->|Hx]; auto.
      * intros H x Hx. apply H. by apply list_elem_of_further.
Qed.

(** The run of [get_product] with storage available. *)
Lemma get_product_run (st : storage) (product_id : string) :
  GET_api_product product_id (Some st)
  = (match Bson.from_str product_id with
     | None => Response 400 (detail "Invalid product id")
     | Some bs =>
         match head (List.filter (has_id bs) (collection st "product")) with
         | Some d =>
             if json_safe (VDict (api_shape d)) then Response 200 (VDict (api_shape d))
             else internal_server_error
         | None => Response 404 (detail "Product not found")
         end
     end, Some st).
Proof.
  unfold GET_api_product, route, get_product.
  unfold bind at 1. simpl.
  unfold bind at 1. unfold try_except, ObjectId_of_str.
  destruct (Bson.from_str product_id) as [bs|]; simpl; [|done].
  unfold bind at 1. simpl.
  destruct (head _) as [d|] eqn:Hd; simpl; [|done].
  rewrite (has_id_nonempty bs d) by eauto using head_filter_Some.
  unfold bind at 1. rewrite serialize_detached_run. done.
Qed.

Lemma has_id_doc_oid o (d : pydict) :
  has_id (Bson.binary o) d = true ↔ doc_oid d = Some o.
Proof.
  unfold has_id, doc_oid. destruct (d !! "_id") as [[| | | | |o'| |]|]; try done.
  rewrite bool_decide_eq_true. split; [intros H; f_equal; by apply Bson.ObjectId_eq|].
  by intros [= ->].
Qed.

Lemma has_id_false bs (d : pydict) :
  has_id bs d = false ↔ ∀ o, doc_oid d = Some o → Bson.binary o ≠ bs.
Proof.
  unfold has_id, doc_oid. destruct (d !! "_id") as [[| | | | |o'| |]|];
    try (split; [done|done]).
  rewrite bool_decide_eq_false. split; [by intros H o [= <-]|]. intros H. by apply H.
Qed.

(** C4. With storage available, and [ObjectId(product_id)] read as the
    constructor does it (24 characters that [bytes.fromhex] takes): an
    identifier it refuses is answered 400; one it takes, when no product
    has these bytes as its identifier, is answered 404; a 404 comes only
    for an identifier that is taken and that no product has, and a 400
    only for one that is refused. The store is left as it is. *)

Theorem get_product_errors (st : storage) (product_id : string) :
  (Bson.from_str product_id = None →
     GET_api_product product_id (Some st)
     = (Response 400 (detail "Invalid product id"), Some st))
  ∧ (∀ bs, Bson.from_str product_id = Some bs →
       (∀ d o, d ∈ collection st "product" → doc_oid d = Some o → Bson.binary o ≠ bs) →
       GET_api_product product_id (Some st)
       = (Response 404 (detail "Product not found"), Some st))
  ∧ (status_of (GET_api_product product_id (Some st)).1 = 404 →
       ∃ bs, Bson.from_str product_id = Some bs
             ∧ ∀ d o, d ∈ collection st "product" → doc_oid d = Some o →
                      Bson.binary o ≠ bs)
  ∧ (status_of (GET_api_product product_id (Some st)).1 = 400 →
       Bson.from_str product_id = None).
Proof.
  rewrite get_product_run.
  destruct (Bson.from_str product_id) as [bs|] eqn:Hp.
  - split; [done|]. split; [|split].
    + intros bs' [= <-] Habs.
      assert (head (List.filter (has_id bs) (collection st "product")) = None) as ->; [|done].
      apply head_filter_None. intros d Hd. apply has_id_false. eauto.
    + destruct (head _) as [d|] eqn:Hhead.
      { destruct (json_safe (VDict (api_shape d))); simpl; discriminate. }
      intros _. exists bs. split; [done|]. intros d o Hd Ho.
      rewrite head_filter_None in Hhead. by apply (has_id_false bs d); [apply Hhead|].
    + destruct (head _) as [d|]; [|simpl; discriminate].
      destruct (json_safe (VDict (api_shape d))); simpl; discriminate.
  - split; [done|]. split; [done|]. split; [simpl; discriminate|done].
Qed.

Lemma get_product_errors_witness :
  GET_api_product "not-an-id" (Some Sample.shop)
  = (Response 400 (detail "Invalid product id"), Some Sample.shop)
  ∧ GET_api_product "654a1b2c3d4e5f60718293ff" (Some Sample.shop)
    = (Response 404 (detail "Product not found"), Some Sample.shop)
  ∧ GET_api_product "654a1b2c3d4e5f60718293  " (Some Sample.shop)
    = (Response 404 (detail "Product not found"), Some Sample.shop).
Proof.
  split; [|split].
  - apply (get_product_errors Sample.shop "not-an-id"). reflexivity.
  - destruct (get_product_errors Sample.shop "654a1b2c3d4e5f60718293ff")
      as (_ & H404 & _).
    apply (H404 [x65; x4a; x1b; x2c; x3d; x4e; x5f; x60; x71; x82; x93; xff]);
      [reflexivity|].
    intros d o Hd Ho. apply list_elem_of_singleton in Hd as ->.
    injection Ho as <-. discriminate.
  - destruct (get_product_errors Sample.shop "654a1b2c3d4e5f60718293  ")
      as (_ & H404 & _).
    apply (H404 [x65; x4a; x1b; x2c; x3d; x4e; x5f; x60; x71; x82; x93]);
      [reflexivity|].
    intros d o Hd Ho. apply list_elem_of_singleton in Hd as ->.
    injection Ho as <-. discriminate.
Defined.

(** *** Orders without items *)

Lemma create_order_empty_run (alg : Numeric.summation) (order : OrderIn.t) (st : storage) :
  OrderIn.items order = [] →
  create_order alg order (Some st)
  = (Raise (HTTPException 400 "Order must contain at least one item"), Some st).
Proof. intros Hitems. unfold create_order, bind. simpl. by rewrite Hitems. Qed.

(** C2, as the code has it. An order without items leaves the state as
    it is; with storage available the answer is 400, and without storage
    the first guard of the handler answers 500. *)
Theorem create_order_empty (alg : Numeric.summation) (order : OrderIn.t) (w : world) :
  OrderIn.items order = [] →
  POST_api_orders alg order w
  = (match w with
     | Some _ => Response 400 (detail "Order must contain at least one item")
     | None => Response 500 (detail "Database not available")
     end, w).
Proof.
  intros Hitems. unfold POST_api_orders, route.
  destruct w as [st|]; [by rewrite create_order_empty_run|done].
Qed.

Lemma create_order_empty_witness :
  POST_api_orders Numeric.Plain Sample.empty_order (Some Sample.shop)
  = (Response 400 (detail "Order must contain at least one item"), Some Sample.shop).
Proof.
  apply (create_order_empty Numeric.Plain Sample.empty_order (Some Sample.shop)).
  reflexivity.
Defined.

(** C2, as stated, fails without storage: the answer is 500, not 400. *)
Lemma create_order_empty_unavailable :
  POST_api_orders Numeric.Plain Sample.empty_order None
  = (Response 500 (detail "Database not available"), None)
  ∧ status_of (POST_api_orders Numeric.Plain Sample.empty_order None).1 ≠ 400.
Proof. split; [reflexivity|discriminate]. Qed.

(** *** Insertion *)

Lemma elem_of_stored_ids (st : storage) c (d : pydict) o :
  d ∈ collection st c → doc_oid d = Some o → o ∈ stored_ids st.
Proof.
  unfold collection, stored_ids. intros Hd Ho.
  destruct (collections st !! c) as [docs|] eqn:Hc; simpl in Hd;
    [|by apply elem_of_nil in Hd].
  apply list_elem_of_bind. exists (c, docs). split.
  - apply list_elem_of_omap. eauto.
  - by apply elem_of_map_to_list.
Qed.

Lemma elem_of_stored_ids_iff (st : storage) o :
  o ∈ stored_ids st ↔ ∃ c d, d ∈ collection st c ∧ doc_oid d = Some o.
Proof.
  split; [|intros (c & d & Hd & Ho); eauto using elem_of_stored_ids].
  unfold stored_ids. intros ([c docs] & Ho & Hc)%list_elem_of_bind.
  apply elem_of_map_to_list in Hc. apply list_elem_of_omap in Ho as (d & Hd & Ho).
  exists c, d. split; [|done]. unfold collection. by rewrite Hc.
Qed.

Lemma collection_inserted c o data rest st c' :
  collection (Invariant.inserted c o data rest st) c'
  = if decide (c = c') then (collection st c ++ [with_id o data])%list
    else collection st c'.
Proof.
  unfold Invariant.inserted, collection at 1. simpl. rewrite lookup_insert.
  by destruct (decide (c = c')) as [->|].
Qed.

Lemma doc_oid_with_id o data : doc_oid (with_id o data) = Some o.
Proof. unfold doc_oid, with_id. by rewrite lookup_insert_eq. Qed.

(** The identifiers in use after an insertion: the new one, and those
    that were. *)
Lemma stored_ids_inserted c o data rest st o' :
  o' ∈ stored_ids (Invariant.inserted c o data rest st) ↔ o' = o ∨ o' ∈ stored_ids st.
Proof.
  rewrite !elem_of_stored_ids_iff. split.
  - intros (c' & d & Hd & Hid). rewrite collection_inserted in Hd.
    destruct (decide (c = c')) as [->|]; [|right; eauto].
    apply elem_of_app in Hd as [Hd| ->%list_elem_of_singleton]; [right; eauto|].
    left. rewrite doc_oid_with_id in Hid. congruence.
  - intros [->|(c' & d & Hd & Hid)].
    + exists c, (with_id o data). rewrite collection_inserted, decide_True by done.
      split; [apply elem_of_app; right; by apply list_elem_of_singleton|].
      apply doc_oid_with_id.
    + exists c', d. split; [|done]. rewrite collection_inserted.
      destruct (decide (c = c')) as [->|]; [|done]. apply elem_of_app. by left.
Qed.

Lemma fresh_no_match (st : storage) c o :
  o ∉ stored_ids st → ∀ d, d ∈ collection st c → has_id (Bson.binary o) d = false.
Proof.
  intros Hfresh d Hd. apply not_true_is_false. rewrite has_id_doc_oid.
  intros Ho. apply Hfresh. eauto using elem_of_stored_ids.
Qed.

(** The identifier the store assigns is the first of its supply that no
    document has: it is new to the store, and what is left of the supply
    comes after it. *)
Lemma skip_used_cons (used ids : list ObjectId) o rest :
  skip_used used ids = o :: rest →
  (o ∉ used)
  ∧ ∃ skipped, ids = (skipped ++ o :: rest)%list ∧ ∀ x, x ∈ skipped → x ∈ used.
Proof.
  induction ids as [|x ids IH]; simpl; [done|].
  case_bool_decide as Hx.
  - intros (Ho & skipped & -> & Hskipped)%IH. split; [done|].
    exists (x :: skipped). split; [done|].
    intros y [->|Hy]%elem_of_cons; auto.
  - intros [= -> ->]. split; [done|]. exists []. split; [done|].
    intros y Hy. by apply elem_of_nil in Hy.
Qed.

Lemma skip_used_head (used : list ObjectId) o rest :
  o ∉ used → skip_used used (o :: rest) = o :: rest.
Proof. intros Ho. simpl. by rewrite bool_decide_eq_false_2. Qed.

Lemma assign_fresh (st : storage) o rest :
  assign st = Some (o, rest) → o ∉ stored_ids st.
Proof.
  unfold assign. destruct (skip_used _ _) as [|o' rest'] eqn:Hskip; [done|].
  intros [= -> ->]. by apply skip_used_cons in Hskip as [? _].
Qed.

Lemma assign_suffix (st : storage) o rest :
  assign st = Some (o, rest) → (o :: rest) `suffix_of` identifiers st.
Proof.
  unfold assign. destruct (skip_used _ _) as [|o' rest'] eqn:Hskip; [done|].
  intros [= -> ->]. apply skip_used_cons in Hskip as (_ & skipped & -> & _).
  by exists skipped.
Qed.

(** In a store whose next identifier is new, that one is assigned. *)
Lemma assign_head (st : storage) o rest :
  identifiers st = o :: rest → o ∉ stored_ids st → assign st = Some (o, rest).
Proof. intros Hids Ho. unfold assign. by rewrite Hids, skip_used_head. Qed.

Lemma filter_none {A} (P : A → bool) (l : list A) :
  (∀ x, x ∈ l → P x = false) → List.filter P l = [].
Proof.
  induction l as [|a l IH]; intros H; simpl; [done|].
  rewrite (H a) by apply list_elem_of_here.
  apply IH. intros x Hx. apply H. by apply list_elem_of_further.
Qed.

Lemma filter_all {A} (P : A → bool) (l : list A) :
  (∀ x, x ∈ l → P x = true) → List.filter P l = l.
Proof.
  induction l as [|a l IH]; intros H; simpl; [done|].
  rewrite (H a) by apply list_elem_of_here.
  f_equal. apply IH. intros x Hx. apply H. by apply list_elem_of_further.
Qed.

Lemma filter_new {A} (P : A → bool) (old new : list A) :
  (∀ x, x ∈ old → P x = false) → (∀ x, x ∈ new → P x = true) →
  List.filter P (old ++ new) = new.
Proof.
  intros Hold Hnew. rewrite List.filter_app, filter_none, filter_all by done. done.
Qed.

(** A stored document with no identifier among its fields is sent as its
    fields plus [id]. *)
Lemma api_shape_stored (p : pydict) (o : ObjectId) :
  p !! "_id" = None → (∀ k o', p !! k ≠ Some (VObjectId o')) →
  api_shape (with_id o p) = <["id" := VStr (Bson.str o)]> p.
Proof.
  intros Hno Hoid. unfold api_shape, rename_id, with_id.
  rewrite lookup_insert_eq. simpl.
  rewrite delete_insert_eq, delete_id by done.
  rewrite fmap_insert. simpl. f_equal.
  apply map_eq; intros k. rewrite lookup_fmap.
  specialize (Hoid k). destruct (p !! k) as [[]|]; simpl; congruence.
Qed.


Lemma has_id_with_id o p : has_id (Bson.binary o) (with_id o p) = true.
Proof. unfold has_id, with_id. rewrite lookup_insert_eq. by apply bool_decide_eq_true. Qed.

(** Insert, then read back by the identifier the store assigned. *)
Lemma create_then_find {B} (c : string) (data : pydict) (st : storage) o rest
    (k : option pydict → Py world B) :
  assign st = Some (o, rest) →
  (new_id <- create_document c data ;;
   _id <- ObjectId_of_str new_id ;;
   doc <- find_one c _id ;;
   k doc) (Some st)
  = k (Some (with_id o data))
      (Some {| collections := <[c := (collection st c ++ [with_id o data])%list]> (collections st);
               identifiers := rest |}).
Proof.
  intros Hassign. pose proof (assign_fresh _ _ _ Hassign) as Hfresh.
  unfold bind at 1. unfold create_document. rewrite Hassign.
  unfold bind at 1. unfold ObjectId_of_str. rewrite BsonFacts.from_str_str.
  unfold ret. unfold bind at 1. unfold find_one, collection at 1. simpl.
  rewrite lookup_insert_eq. simpl.
  rewrite (filter_new _ _ [with_id o data]); [done| |].
  - by apply fresh_no_match.
  - intros x ->%list_elem_of_singleton. apply has_id_with_id.
Qed.

(** An insertion the store refuses. *)
Lemma create_refused {B} (c : string) (data : pydict) (st : storage)
    (k : string → Py world B) :
  assign st = None →
  (new_id <- create_document c data ;; k new_id) (Some st)
  = (Raise (StorageError "no identifier"), Some st).
Proof. intros Hassign. unfold bind, create_document. by rewrite Hassign. Qed.

Ltac plain_fields :=
  intros;
  repeat (rewrite lookup_insert; case_decide;
          [try discriminate; by (unfold optional_str; case_match)|]);
  rewrite lookup_empty; discriminate.

Lemma ProductIn_plain (p : ProductIn.t) k o :
  ProductIn.model_dump p !! k ≠ Some (VObjectId o).
Proof. unfold ProductIn.model_dump. plain_fields. Qed.

Lemma order_data_plain (order : OrderIn.t) (total : value) k o :
  isinstance_ObjectId total = false →
  order_data order total !! k ≠ Some (VObjectId o).
Proof.
  intros Ht. unfold order_data.
  repeat (rewrite lookup_insert; case_decide;
          [try discriminate; by (intros [= ->])|]).
  rewrite lookup_empty; discriminate.
Qed.

(** The encoder takes a product exactly when its price is finite. *)
Lemma json_safe_product (p : ProductIn.t) (id : value) :
  json_safe id = true →
  json_safe (VDict (<["id" := id]> (ProductIn.model_dump p)))
  = PrimFloat.is_finite (ProductIn.price p).
Proof.
  intros Hid. destruct (PrimFloat.is_finite (ProductIn.price p)) eqn:Hprice.
  - unfold ProductIn.model_dump.
    repeat (apply json_safe_insert;
            [done || apply json_safe_optional_str|]).
    apply json_safe_empty.
  - apply (json_safe_lookup _ "price" (VFloat (ProductIn.price p))); done.
Qed.

(** The run of [create_product] with storage available. *)
Lemma create_product_run (product : ProductIn.t) (st : storage) :
  POST_api_products product (Some st)
  = match assign st with
    | Some (oid, rest) =>
        (if PrimFloat.is_finite (ProductIn.price product)
         then Response 201
                (VDict (<["id" := VStr (Bson.str oid)]> (ProductIn.model_dump product)))
         else internal_server_error,
         Some {| collections :=
                   <["product" := (collection st "product"
                                   ++ [with_id oid (ProductIn.model_dump product)])%list]>
                     (collections st);
                 identifiers := rest |})
    | None => (internal_server_error, Some st)
    end.
Proof.
  unfold POST_api_products, route, create_product.
  unfold bind at 1. unfold db_is_None. cbv beta iota.
  destruct (assign st) as [[oid rest]|] eqn:Hassign.
  - rewrite (create_then_find _ _ _ oid rest) by done.
    unfold bind at 1. rewrite serialize_detached_run. simpl fmap. unfold ret, value_of_doc.
    rewrite api_shape_stored; [|done|apply ProductIn_plain].
    by rewrite json_safe_product.
  - by rewrite create_refused.
Qed.

(** C3, as the code has it. With storage available, a finite price, and
    a store that takes the document (it assigns [oid], the first
    identifier of its supply that no document has), [POST /api/products]
    answers 201 with a document whose [id] is the string form of that
    identifier (never empty, and the form of no identifier the store
    held), a key the input does not have, and whose other fields are
    exactly those of the input; the document is appended to the product
    collection. *)

Theorem create_product_echo (product : ProductIn.t) (st : storage)
    (oid : ObjectId) (rest : list ObjectId) :
  assign st = Some (oid, rest) →
  PrimFloat.is_finite (ProductIn.price product) = true →
  ∃ doc : pydict,
    POST_api_products product (Some st)
    = (Response 201 (VDict doc),
       Some {| collections :=
                 <["product" := (collection st "product"
                                 ++ [with_id oid (ProductIn.model_dump product)])%list]>
                   (collections st);
               identifiers := rest |})
    ∧ doc !! "id" = Some (VStr (Bson.str oid))
    ∧ Bson.str oid ≠ ""
    ∧ (∀ o, o ∈ stored_ids st → Bson.str o ≠ Bson.str oid)
    ∧ ProductIn.model_dump product !! "id" = None
    ∧ delete "id" doc = ProductIn.model_dump product
    ∧ doc !! "title" = Some (VStr (ProductIn.title product))
    ∧ doc !! "description" = Some (optional_str (ProductIn.description product))
    ∧ doc !! "price" = Some (VFloat (ProductIn.price product))
    ∧ doc !! "category" = Some (VStr (ProductIn.category product))
    ∧ doc !! "image" = Some (optional_str (ProductIn.image product))
    ∧ doc !! "in_stock" = Some (VBool (ProductIn.in_stock product)).
Proof.
  intros Hassign Hprice.
  exists (<["id" := VStr (Bson.str oid)]> (ProductIn.model_dump product)).
  split; [by rewrite create_product_run, Hassign, Hprice|].
  split; [by rewrite lookup_insert_eq|].
  split; [apply BsonFacts.str_nonempty|].
  split.
  { intros o Ho Heq. apply BsonFacts.str_inj in Heq as ->.
    by apply (assign_fresh _ _ _ Hassign). }
  split; [done|].
  split; [by rewrite delete_insert_eq, delete_id|].
  by repeat split.
Qed.

Lemma create_product_echo_witness :
  ∃ doc : pydict,
    (POST_api_products Sample.mug (Some Sample.shop)).1 = Response 201 (VDict doc)
    ∧ doc !! "id" = Some (VStr "654a1b2c3d4e5f60718293a6")
    ∧ doc !! "title" = Some (VStr "Ceramic Mug")
    ∧ doc !! "price" = Some (VFloat 18.5).
Proof.
  destruct (create_product_echo Sample.mug Sample.shop Sample.oid3
              [Sample.oid4; Sample.oid5; Sample.oid6])
    as (doc & Hrun & Hid & _ & _ & _ & _ & Htitle & _ & Hprice & _);
    [vm_compute; reflexivity | reflexivity |].
  exists doc. rewrite Hrun. split; [reflexivity|].
  split; [exact Hid|]. split; [exact Htitle|exact Hprice].
Defined.

(** C3, as stated, fails in three ways: without storage the answer is 500
    "Database not available"; a price that is not a finite number is
    stored, and the answer is 500 because the document cannot be encoded;
    a store that does not take the document is answered 500. In none of
    them a document comes back. *)
Lemma create_product_unavailable :
  POST_api_products Sample.mug None
  = (Response 500 (detail "Database not available"), None)
  ∧ (∃ st' : storage,
       POST_api_products Sample.priceless (Some Sample.shop)
       = (Response 500 (VStr "Internal Server Error"), Some st')
       ∧ collection st' "product"
         = [Sample.stored_mug;
            with_id Sample.oid3 (ProductIn.model_dump Sample.priceless)])
  ∧ POST_api_products Sample.mug (Some Sample.full_shop)
    = (Response 500 (VStr "Internal Server Error"), Some Sample.full_shop).
Proof.
  split; [reflexivity|]. split.
  - eexists. rewrite create_product_run.
    split; [vm_compute; reflexivity|reflexivity].
  - rewrite create_product_run. vm_compute. reflexivity.
Qed.

(** *** Orders *)

Lemma fresh_in_shop (o : ObjectId) :
  bool_decide (o ∉ stored_ids Sample.shop) = true → o ∉ stored_ids Sample.shop.
Proof. apply bool_decide_eq_true_1. Qed.

Lemma results_nonempty {A} (rs : list (result A)) (l : list A) :
  results rs = Ok l → rs ≠ [] → l ≠ [].
Proof.
  destruct rs as [|[a|e] rs]; simpl; [done| |done].
  destruct (results rs); [|done]. by intros [= <-].
Qed.

Lemma py_sum_float (alg : Numeric.summation) (xs : list float) :
  xs ≠ [] → ∃ total, Numeric.py_sum alg xs = VFloat total.
Proof. destruct xs; [done|]. simpl. eauto. Qed.

(** **** The handler against the words of the specification *)

Lemma units_max (quantity : Z) : OrderSpec.units quantity = Z.max 1 quantity.
Proof. unfold OrderSpec.units. destruct (Z.ltb_spec quantity 1); lia. Qed.

Lemma line_amount_spec (i : OrderItemIn.t) (a : float) :
  line_amount i = Ok a
  ↔ OrderSpec.amount (OrderItemIn.price i) (OrderItemIn.quantity i) a.
Proof.
  unfold line_amount, Numeric.float_mul_int, Numeric.float_of_int, OrderSpec.amount.
  rewrite units_max. cbv zeta.
  destruct (PrimFloat.is_infinity _); split.
  - done.
  - by intros [? _].
  - by intros [= <-].
  - by intros [_ ->].
Qed.

Lemma line_amounts_spec (items : list OrderItemIn.t) (amounts : list float) :
  line_amounts items = Ok amounts
  ↔ Forall2 (λ i a, OrderSpec.amount (OrderItemIn.price i) (OrderItemIn.quantity i) a)
      items amounts.
Proof.
  unfold line_amounts. revert amounts.
  induction items as [|i items IH]; intros amounts.
  - split; [intros [= <-]; constructor|by intros ->%Forall2_nil_inv_l].
  - rewrite fmap_cons. cbn [results].
    destruct (line_amount i) as [a|e] eqn:Ha.
    + destruct (results (line_amount <$> items)) as [l|e] eqn:Hl.
      * split.
        -- intros [= <-]. constructor; [by apply line_amount_spec|by apply (proj1 (IH l))].
        -- intros (a' & l' & Ha' & Hl' & ->)%Forall2_cons_inv_l.
           apply line_amount_spec in Ha'. apply (proj2 (IH l')) in Hl'. congruence.
      * split; [done|].
        intros (a' & l' & _ & Hl' & _)%Forall2_cons_inv_l.
        by apply (proj2 (IH l')) in Hl'.
    + split; [done|].
      intros (a' & l' & Ha' & _)%Forall2_cons_inv_l.
      apply line_amount_spec in Ha'. congruence.
Qed.

Lemma plain_sum_fold (acc : float) (xs : list float) :
  Numeric.plain_sum acc xs = fold_left PrimFloat.add xs acc.
Proof. unfold Numeric.plain_sum. revert acc. induction xs; simpl; auto. Qed.

Lemma compensated_sum_fold (f c : float) (xs : list float) :
  Numeric.compensated_sum f c xs
  = let '(f', c') := fold_left OrderSpec.compensate xs (f, c) in
    if PrimFloat.is_finite c' && negb (PrimFloat.eqb c' 0)
    then PrimFloat.add f' c' else f'.
Proof.
  revert f c. induction xs as [|x xs IH]; intros f c; simpl.
  - by rewrite andb_comm.
  - by rewrite IH.
Qed.

Lemma py_sum_spec (alg : Numeric.summation) (amounts : list float) (total : float) :
  amounts ≠ [] →
  Numeric.py_sum alg amounts = VFloat total ↔ OrderSpec.summed alg amounts total.
Proof.
  destruct amounts as [|x xs]; [done|]. intros _.
  destruct alg; simpl.
  - rewrite plain_sum_fold. split; [by intros [= <-]|by intros ->].
  - rewrite compensated_sum_fold.
    destruct (fold_left _ _ _) as [f c]. split; [by intros [= <-]|by intros ->].
Qed.

(** The nearest integer, ties to even, is what [div_half_even] computes,
    and nothing else is. *)
Lemma div_half_even_nearest (m : positive) (k : Z) :
  (0 ≤ k)%Z →
  OrderSpec.nearest_cents m k (Numeric.div_half_even (Z.pos m * 100) (2 ^ k)).
Proof.
  intros Hk. unfold OrderSpec.nearest_cents, Numeric.div_half_even.
  assert (0 < 2 ^ k)%Z as Hd by (apply Z.pow_pos_nonneg; lia).
  set (d := (2 ^ k)%Z) in *. set (N := (Z.pos m * 100)%Z).
  replace (100 * Z.pos m)%Z with N by (unfold N; lia).
  pose proof (Z.div_mod N d ltac:(lia)) as Hdiv.
  pose proof (Z.mod_pos_bound N d Hd) as Hmod.
  set (q := (N / d)%Z) in *. set (r := (N mod d)%Z) in *.
  cbv zeta.
  destruct (Z.compare_spec (2 * r) d) as [Heq|Hlt|Hgt].
  - destruct (Z.even q) eqn:Heven.
    + split; [|done]. replace (N - q * d)%Z with r by lia. lia.
    + replace (N - (q + 1) * d)%Z with (r - d)%Z by lia.
      split; [lia|]. intros _. rewrite Z.even_add, Heven. done.
  - replace (N - q * d)%Z with r by lia. split; lia.
  - replace (N - (q + 1) * d)%Z with (r - d)%Z by lia. split; lia.
Qed.

Lemma nearest_cents_unique (m : positive) (k n1 n2 : Z) :
  (0 ≤ k)%Z →
  OrderSpec.nearest_cents m k n1 → OrderSpec.nearest_cents m k n2 → n1 = n2.
Proof.
  intros Hk. unfold OrderSpec.nearest_cents. cbv zeta.
  assert (0 < 2 ^ k)%Z as Hd by (apply Z.pow_pos_nonneg; lia).
  set (d := (2 ^ k)%Z) in *. set (N := (100 * Z.pos m)%Z).
  intros [H1 E1] [H2 E2].
  assert (∀ a b : Z, a < b → OrderSpec.nearest_cents m k a → OrderSpec.nearest_cents m k b
                     → False)%Z as Hlt.
  { unfold OrderSpec.nearest_cents. cbv zeta. fold d N.
    intros a b Hab [Ha Ea] [Hb Eb].
    assert ((a + 1) * d ≤ b * d)%Z as Hstep by (apply Z.mul_le_mono_nonneg_r; lia).
    assert (b = (a + 1)%Z) as ->.
    { destruct (Z.eq_dec b (a + 1)%Z) as [|Hne]; [done|].
      assert ((a + 2) * d ≤ b * d)%Z by (apply Z.mul_le_mono_nonneg_r; lia). lia. }
    assert (Z.even a = true) as Heven_a by (apply Ea; lia).
    assert (Z.even (a + 1) = true) as Heven_b by (apply Eb; lia).
    rewrite Z.even_add, Heven_a in Heven_b. done. }
  destruct (Z.lt_trichotomy n1 n2) as [Hc|[Hc|Hc]]; [|done|].
  - destruct (Hlt n1 n2 Hc); split; done.
  - destruct (Hlt n2 n1 Hc); split; done.
Qed.

Lemma float_round2_spec (x : float) :
  OrderSpec.rounded_to_cents x (Numeric.float_round2 x).
Proof.
  unfold OrderSpec.rounded_to_cents, Numeric.float_round2.
  destruct (Prim2SF x) as [| | |s m e]; try done.
  destruct (Z.ltb_spec e 0) as [Hneg|Hpos].
  - rewrite (proj2 (Z.leb_gt 0 e)) by done.
    eexists. split; [apply div_half_even_nearest; lia|]. done.
  - by rewrite (proj2 (Z.leb_le 0 e)).
Qed.

Lemma rounded_to_cents_unique (x r : float) :
  OrderSpec.rounded_to_cents x r → r = Numeric.float_round2 x.
Proof.
  pose proof (float_round2_spec x) as Hspec. revert Hspec.
  unfold OrderSpec.rounded_to_cents.
  destruct (Prim2SF x) as [| | |s m e]; try congruence.
  destruct (Z.ltb_spec e 0) as [Hneg|Hpos]; [|congruence].
  intros (n1 & Hn1 & ->) (n2 & Hn2 & ->).
  by rewrite (nearest_cents_unique m (- e) n1 n2) by (done || lia).
Qed.

(** **** The run of the handler *)

Lemma json_safe_item (i : OrderItemIn.t) :
  json_safe (VDict (OrderItemIn.model_dump i)) = PrimFloat.is_finite (OrderItemIn.price i).
Proof.
  destruct (PrimFloat.is_finite (OrderItemIn.price i)) eqn:Hprice.
  - unfold OrderItemIn.model_dump.
    repeat (apply json_safe_insert; [done || apply json_safe_optional_str|]).
    apply json_safe_empty.
  - apply (json_safe_lookup _ "price" (VFloat (OrderItemIn.price i))); done.
Qed.

Lemma json_safe_items (items : list OrderItemIn.t) :
  json_safe (VList ((λ i, VDict (OrderItemIn.model_dump i)) <$> items))
  = forallb (λ i, PrimFloat.is_finite (OrderItemIn.price i)) items.
Proof.
  change (json_safe (VList ?l)) with (forallb json_safe l).
  induction items as [|i items IH]; [done|].
  rewrite fmap_cons. cbn [forallb]. by rewrite IH, json_safe_item.
Qed.

(** The body of the answer to an order, for the identifier and the total
    it was stored with. *)
Lemma json_safe_order (order : OrderIn.t) (id : string) (total : float) :
  json_safe (VDict (<["message" := VStr "Order placed successfully"]>
                      (<["id" := VStr id]> (order_data order (VFloat total)))))
  = forallb (λ i, PrimFloat.is_finite (OrderItemIn.price i)) (OrderIn.items order)
    && PrimFloat.is_finite total.
Proof.
  rewrite <- json_safe_items.
  destruct (json_safe (VList _)) eqn:Hitems; [destruct (PrimFloat.is_finite total) eqn:Htotal|].
  - unfold order_data. by repeat (apply json_safe_insert; [done|]).
  - apply (json_safe_lookup _ "total_amount" (VFloat total)); done.
  - eapply (json_safe_lookup _ "items"); [reflexivity|exact Hitems].
Qed.

(** The run of [create_order] on an order whose amounts can be computed,
    in a store that takes the document. *)
Lemma create_order_run (alg : Numeric.summation) (order : OrderIn.t) (st : storage)
    (oid : ObjectId) (rest : list ObjectId) (amounts : list float) (total : float) :
  OrderIn.items order ≠ [] →
  assign st = Some (oid, rest) →
  line_amounts (OrderIn.items order) = Ok amounts →
  Numeric.py_sum alg amounts = VFloat total →
  create_order alg order (Some st)
  = (Ok (VDict (<["message" := VStr "Order placed successfully"]>
                 (<["id" := VStr (Bson.str oid)]>
                    (order_data order (VFloat (Numeric.float_round2 total)))))),
     Some {| collections :=
               <["order" := (collection st "order"
                             ++ [with_id oid (order_data order
                                    (VFloat (Numeric.float_round2 total)))])%list]>
                 (collections st);
             identifiers := rest |}).
Proof.
  intros Hitems Hassign Hamounts Hsum. unfold create_order.
  unfold bind at 1. simpl.
  rewrite bool_decide_eq_false_2 by done.
  unfold bind at 1. unfold lift at 1. rewrite Hamounts.
  unfold bind at 1. unfold lift at 1. rewrite Hsum. simpl.
  rewrite (create_then_find _ _ _ oid rest) by done.
  unfold bind at 1. rewrite serialize_detached_run. simpl.
  rewrite api_shape_stored; [done|done|].
  intros k o'. by apply order_data_plain.
Qed.

(** The same in a store that does not take the document. *)
Lemma create_order_refused (alg : Numeric.summation) (order : OrderIn.t) (st : storage)
    (amounts : list float) :
  OrderIn.items order ≠ [] →
  assign st = None →
  line_amounts (OrderIn.items order) = Ok amounts →
  create_order alg order (Some st) = (Raise (StorageError "no identifier"), Some st).
Proof.
  intros Hitems Hassign Hamounts.
  destruct (py_sum_float alg amounts) as [total Hsum].
  { eapply results_nonempty; [exact Hamounts|].
    unfold line_amounts. by destruct (OrderIn.items order). }
  unfold create_order.
  unfold bind at 1. simpl.
  rewrite bool_decide_eq_false_2 by done.
  unfold bind at 1. unfold lift at 1. rewrite Hamounts.
  unfold bind at 1. unfold lift at 1. rewrite Hsum. simpl.
  by rewrite create_refused.
Qed.

Lemma create_order_raise (alg : Numeric.summation) (order : OrderIn.t) (st : storage) e :
  OrderIn.items order ≠ [] →
  line_amounts (OrderIn.items order) = Raise e →
  create_order alg order (Some st) = (Raise e, Some st).
Proof.
  intros Hitems Hraise. unfold create_order. unfold bind at 1. simpl.
  rewrite bool_decide_eq_false_2 by done.
  unfold bind at 1. unfold lift at 1. by rewrite Hraise.
Qed.

Lemma line_amounts_raise (items : list OrderItemIn.t) e :
  line_amounts items = Raise e →
  e = OverflowError "int too large to convert to float".
Proof.
  unfold line_amounts. induction items as [|i items IH]; simpl; [done|].
  unfold line_amount at 1, Numeric.float_mul_int.
  destruct (Numeric.float_of_int _); [|by intros [= <-]].
  destruct (results _); [done|]. intros [= <-]. by apply IH.
Qed.

(** What the route answers to an order whose amounts can be computed. *)
Lemma POST_api_orders_run (alg : Numeric.summation) (order : OrderIn.t) (st : storage)
    (oid : ObjectId) (rest : list ObjectId) (amounts : list float) (total : float) :
  OrderIn.items order ≠ [] →
  assign st = Some (oid, rest) →
  line_amounts (OrderIn.items order) = Ok amounts →
  Numeric.py_sum alg amounts = VFloat total →
  POST_api_orders alg order (Some st)
  = (if forallb (λ i, PrimFloat.is_finite (OrderItemIn.price i)) (OrderIn.items order)
        && PrimFloat.is_finite (Numeric.float_round2 total)
     then Response 201
            (VDict (<["message" := VStr "Order placed successfully"]>
                      (<["id" := VStr (Bson.str oid)]>
                         (order_data order (VFloat (Numeric.float_round2 total))))))
     else internal_server_error,
     Some {| collections :=
               <["order" := (collection st "order"
                             ++ [with_id oid (order_data order
                                    (VFloat (Numeric.float_round2 total)))])%list]>
                 (collections st);
             identifiers := rest |}).
Proof.
  intros Hitems Hassign Hamounts Hsum. unfold POST_api_orders, route.
  rewrite (create_order_run alg order st oid rest amounts total) by done.
  by rewrite json_safe_order.
Qed.

(** The outcomes of an order with items, one by one. *)
Lemma POST_api_orders_cases (alg : Numeric.summation) (order : OrderIn.t) (st : storage) :
  OrderIn.items order ≠ [] →
  POST_api_orders alg order (Some st) = (internal_server_error, Some st)
  ∨ ∃ (oid : ObjectId) (rest : list ObjectId) (amounts : list float) (total : float),
      assign st = Some (oid, rest)
      ∧ line_amounts (OrderIn.items order) = Ok amounts
      ∧ Numeric.py_sum alg amounts = VFloat total.
Proof.
  intros Hitems.
  destruct (line_amounts (OrderIn.items order)) as [amounts|e] eqn:Hamounts.
  - destruct (assign st) as [[oid rest]|] eqn:Hassign.
    + destruct (py_sum_float alg amounts) as [total Hsum].
      { eapply results_nonempty; [exact Hamounts|].
        unfold line_amounts. by destruct (OrderIn.items order). }
      right. by exists oid, rest, amounts, total.
    + left. unfold POST_api_orders, route.
      by rewrite (create_order_refused alg order st amounts).
  - left. unfold POST_api_orders, route.
    rewrite (create_order_raise alg order st e) by done.
    by apply line_amounts_raise in Hamounts as ->.
Qed.

Lemma stored_total_inserted (st : storage) (oid : ObjectId) (rest : list ObjectId)
    (order : OrderIn.t) (total : value) :
  stored_total
    (Some {| collections :=
               <["order" := (collection st "order"
                             ++ [with_id oid (order_data order total)])%list]>
                 (collections st);
             identifiers := rest |})
  = Some total.
Proof.
  unfold stored_total, collection. simpl.
  rewrite lookup_insert_eq. simpl. by rewrite last_snoc.
Qed.

Lemma example_amounts (items : list OrderItemIn.t) :
  (λ i, (OrderItemIn.price i, OrderItemIn.quantity i)) <$> items
  = [(10%float, 2%Z); (5.5%float, 1%Z)] →
  items ≠ []
  ∧ line_amounts items = Ok [20%float; 5.5%float]
  ∧ forallb (λ i, PrimFloat.is_finite (OrderItemIn.price i)) items = true.
Proof.
  destruct items as [|i1 [|i2 [|i3 items]]]; try discriminate.
  intros [= Hp1 Hq1 Hp2 Hq2]. split; [done|]. split.
  - unfold line_amounts. simpl. unfold line_amount.
    rewrite Hp1, Hq1, Hp2, Hq2. vm_compute. reflexivity.
  - simpl. rewrite Hp1, Hp2. reflexivity.
Qed.

Lemma example_total (alg : Numeric.summation) :
  Numeric.py_sum alg [20%float; 5.5%float] = VFloat 25.5
  ∧ Numeric.float_round2 25.5 = 25.5%float.
Proof. split; [destruct alg|]; vm_compute; reflexivity. Qed.

(** C1. An order that [POST /api/orders] accepts (answers 201) has at
    least one item, and the [total_amount] returned and the one of the
    order stored last are both the total of the specification: the
    amounts are [price * max(1, quantity)], item by item; their sum, with
    either summation of the interpreter, is rounded to two decimal places.
    In the other direction, an order with items whose total, so computed,
    and prices are finite is accepted, with that total, by a store that
    takes the document. In particular, items priced 10.00 with quantity 2
    and 5.50 with quantity 1 give 25.50. *)
Theorem create_order_total :
  (∀ (alg : Numeric.summation) (order : OrderIn.t) (w : world),
      status_of (POST_api_orders alg order w).1 = 201 →
      ∃ (amounts : list float) (sum total : float),
        OrderIn.items order ≠ []
        ∧ Forall2 (λ i a, OrderSpec.amount (OrderItemIn.price i) (OrderItemIn.quantity i) a)
            (OrderIn.items order) amounts
        ∧ OrderSpec.summed alg amounts sum
        ∧ OrderSpec.rounded_to_cents sum total
        ∧ returned_total (POST_api_orders alg order w).1 = Some (VFloat total)
        ∧ stored_total (POST_api_orders alg order w).2 = Some (VFloat total))
  ∧ (∀ (alg : Numeric.summation) (order : OrderIn.t) (st : storage)
       (oid : ObjectId) (rest : list ObjectId) (amounts : list float)
       (sum total : float),
      OrderIn.items order ≠ [] →
      Forall2 (λ i a, OrderSpec.amount (OrderItemIn.price i) (OrderItemIn.quantity i) a)
        (OrderIn.items order) amounts →
      OrderSpec.summed alg amounts sum →
      OrderSpec.rounded_to_cents sum total →
      PrimFloat.is_finite total = true →
      (∀ i, i ∈ OrderIn.items order → PrimFloat.is_finite (OrderItemIn.price i) = true) →
      assign st = Some (oid, rest) →
      status_of (POST_api_orders alg order (Some st)).1 = 201
      ∧ returned_total (POST_api_orders alg order (Some st)).1 = Some (VFloat total)
      ∧ stored_total (POST_api_orders alg order (Some st)).2 = Some (VFloat total))
  ∧ (∀ (alg : Numeric.summation) (order : OrderIn.t) (st : storage)
       (oid : ObjectId) (rest : list ObjectId),
      assign st = Some (oid, rest) →
      (λ i, (OrderItemIn.price i, OrderItemIn.quantity i)) <$> OrderIn.items order
      = [(10%float, 2%Z); (5.5%float, 1%Z)] →
      status_of (POST_api_orders alg order (Some st)).1 = 201
      ∧ returned_total (POST_api_orders alg order (Some st)).1 = Some (VFloat 25.5)
      ∧ stored_total (POST_api_orders alg order (Some st)).2 = Some (VFloat 25.5)).
Proof.
  split; [|split].
  - intros alg order [st|] Hstatus; [|discriminate Hstatus].
    destruct (decide (OrderIn.items order = [])) as [He|Hitems].
    { unfold POST_api_orders, route in Hstatus.
      rewrite create_order_empty_run in Hstatus by done. discriminate Hstatus. }
    destruct (POST_api_orders_cases alg order st Hitems)
      as [Hfail|(oid & rest & amounts & sum & Hassign & Hamounts & Hsum)].
    { rewrite Hfail in Hstatus. discriminate Hstatus. }
    rewrite (POST_api_orders_run alg order st oid rest amounts sum) in Hstatus |- * by done.
    destruct (_ && _); [|discriminate Hstatus].
    exists amounts, sum, (Numeric.float_round2 sum).
    split; [done|]. split; [by apply line_amounts_spec|].
    split.
    { apply py_sum_spec; [|done]. eapply results_nonempty; [exact Hamounts|].
      unfold line_amounts. by destruct (OrderIn.items order). }
    split; [apply float_round2_spec|].
    split; [done|]. cbn [snd]. apply stored_total_inserted.
  - intros alg order st oid rest amounts sum total Hitems Hamounts Hsum Hround
      Hfinite Hprices Hassign.
    apply line_amounts_spec in Hamounts.
    apply py_sum_spec in Hsum.
    2:{ eapply results_nonempty; [exact Hamounts|].
        unfold line_amounts. by destruct (OrderIn.items order). }
    apply rounded_to_cents_unique in Hround as ->.
    rewrite (POST_api_orders_run alg order st oid rest amounts sum) by done.
    rewrite Hfinite, andb_true_r.
    rewrite (proj2 (forallb_forall _ _)).
    2:{ intros i Hi. apply Hprices. by apply list_elem_of_In. }
    split; [done|]. split; [done|]. cbn [snd]. apply stored_total_inserted.
  - intros alg order st oid rest Hassign Hexample.
    apply example_amounts in Hexample as (Hitems & Hamounts & Hprices).
    destruct (example_total alg) as [Hsum Hround].
    rewrite (POST_api_orders_run alg order st oid rest _ _ Hitems Hassign Hamounts Hsum).
    rewrite Hprices, Hround. cbn [andb].
    split; [done|]. split; [done|]. cbn [snd]. apply stored_total_inserted.
Qed.

Lemma create_order_total_witness :
  ∃ (amounts : list float) (sum total : float),
    Forall2 (λ i a, OrderSpec.amount (OrderItemIn.price i) (OrderItemIn.quantity i) a)
      (OrderIn.items Sample.odd_order) amounts
    ∧ OrderSpec.summed Numeric.Compensated amounts sum
    ∧ OrderSpec.rounded_to_cents sum total
    ∧ returned_total
        (POST_api_orders Numeric.Compensated Sample.odd_order (Some Sample.shop)).1
      = Some (VFloat total)
    ∧ stored_total
        (POST_api_orders Numeric.Compensated Sample.odd_order (Some Sample.shop)).2
      = Some (VFloat total).
Proof.
  destruct create_order_total as [Hgeneral _].
  destruct (Hgeneral Numeric.Compensated Sample.odd_order (Some Sample.shop))
    as (amounts & sum & total & _ & Hamounts & Hsum & Hround & Hreturned & Hstored).
  - vm_compute. reflexivity.
  - exists amounts, sum, total. repeat split; assumption.
Defined.

(** C6. Two requests with the same items, whatever their other fields
    and whatever the two stores hold, get the same status and the same
    [total_amount]; when they are accepted, that total is also the one
    stored with each order. The request model has no field for a total. *)

Theorem order_total_from_items (alg : Numeric.summation) (o1 o2 : OrderIn.t)
    (st1 st2 : storage) (i1 i2 : ObjectId) (rest1 rest2 : list ObjectId) :
  OrderIn.items o1 = OrderIn.items o2 →
  identifiers st1 = i1 :: rest1 → i1 ∉ stored_ids st1 →
  identifiers st2 = i2 :: rest2 → i2 ∉ stored_ids st2 →
  status_of (POST_api_orders alg o1 (Some st1)).1
  = status_of (POST_api_orders alg o2 (Some st2)).1
  ∧ returned_total (POST_api_orders alg o1 (Some st1)).1
    = returned_total (POST_api_orders alg o2 (Some st2)).1
  ∧ (status_of (POST_api_orders alg o1 (Some st1)).1 = 201 →
       is_Some (returned_total (POST_api_orders alg o1 (Some st1)).1)
       ∧ stored_total (POST_api_orders alg o1 (Some st1)).2
         = returned_total (POST_api_orders alg o1 (Some st1)).1
       ∧ stored_total (POST_api_orders alg o2 (Some st2)).2
         = returned_total (POST_api_orders alg o2 (Some st2)).1)
  ∧ "total_amount" ∉ OrderIn.model_fields.
Proof.
  intros Hitems Hids1 Hfresh1 Hids2 Hfresh2.
  pose proof (assign_head st1 i1 rest1 Hids1 Hfresh1) as Hassign1.
  pose proof (assign_head st2 i2 rest2 Hids2 Hfresh2) as Hassign2.
  assert ("total_amount" ∉ OrderIn.model_fields) as Hfields.
  { unfold OrderIn.model_fields. rewrite !not_elem_of_cons.
    repeat split; try discriminate. apply not_elem_of_nil. }
  destruct (decide (OrderIn.items o1 = [])) as [He|Hne].
  { unfold POST_api_orders, route.
    rewrite !create_order_empty_run by congruence. simpl.
    repeat split; try done. }
  destruct (line_amounts (OrderIn.items o1)) as [amounts|e] eqn:Hamounts.
  - destruct (py_sum_float alg amounts) as [total Hsum].
    { eapply results_nonempty; [exact Hamounts|].
      unfold line_amounts. by destruct (OrderIn.items o1). }
    rewrite (POST_api_orders_run alg o1 st1 i1 rest1 amounts total) by done.
    rewrite (POST_api_orders_run alg o2 st2 i2 rest2 amounts total) by congruence.
    rewrite <- Hitems. cbn [fst snd]. rewrite !stored_total_inserted.
    destruct (_ && _); simpl; [|done].
    split; [done|]. split; [done|]. split; [|done].
    intros _. split; [by eexists|done].
  - unfold POST_api_orders, route.
    rewrite (create_order_raise alg o1 st1 e) by done.
    rewrite (create_order_raise alg o2 st2 e) by congruence.
    apply line_amounts_raise in Hamounts as ->. simpl. repeat split; done.
Qed.

Lemma order_total_from_items_witness :
  returned_total (POST_api_orders Numeric.Plain Sample.order (Some Sample.shop)).1
  = returned_total
      (POST_api_orders Numeric.Plain
         (Sample.order_of "Grace" [Sample.line 10 2; Sample.line 5.5 1])
         (Some {| collections := ∅; identifiers := [Sample.oid1] |})).1.
Proof.
  destruct (order_total_from_items Numeric.Plain Sample.order
              (Sample.order_of "Grace" [Sample.line 10 2; Sample.line 5.5 1])
              Sample.shop {| collections := ∅; identifiers := [Sample.oid1] |}
              Sample.oid3 Sample.oid1 [Sample.oid4; Sample.oid5; Sample.oid6] [])
    as (_ & Htotal & _).
  - reflexivity.
  - reflexivity.
  - apply fresh_in_shop. vm_compute. reflexivity.
  - reflexivity.
  - apply (bool_decide_eq_true_1 _). vm_compute. reflexivity.
  - exact Htotal.
Defined.

(** *** Seeding *)

Import Invariant.

(** Inserting a list of documents, one after the other: the documents
    the store takes get identifiers that are distinct and new to the
    store, and the collection grows by them at its end; the others stay.
    The first document the store refuses ends the loop with its
    exception. *)
Lemma create_documents_run (c : string) (ps : list pydict) :
  ∀ st : storage,
    ∃ (ids : list ObjectId) (st' : storage),
      (length ids ≤ length ps)%nat
      ∧ comprehension (create_document c) ps (Some st)
        = (if Nat.eqb (length ids) (length ps) then Ok (Bson.str <$> ids)
           else Raise (StorageError "no identifier"), Some st')
      ∧ collection st' c = (collection st c ++ zip_with with_id ids ps)%list
      ∧ (∀ c', c' ≠ c → collections st' !! c' = collections st !! c')
      ∧ NoDup ids
      ∧ (∀ o, o ∈ ids → o ∉ stored_ids st)
      ∧ (∀ o, o ∈ stored_ids st → o ∈ stored_ids st').
Proof.
  induction ps as [|p ps IH]; intros st.
  - exists [], st. simpl. rewrite app_nil_r.
    repeat split; try done; [constructor|]. intros o Ho. by apply elem_of_nil in Ho.
  - destruct (assign st) as [[o rest]|] eqn:Hassign.
    + destruct (IH (inserted c o p rest st))
        as (ids & st' & Hlen & Hrun & Hcol & Hother & Hnodup & Hfresh & Hkeep).
      exists (o :: ids), st'. split; [simpl; lia|]. split; [|split; [|split; [|split; [|split]]]].
      * cbn [comprehension]. unfold bind at 1. unfold create_document at 1.
        rewrite Hassign. fold (inserted c o p rest st).
        unfold bind at 1. rewrite Hrun. simpl length.
        change (Nat.eqb (S ?a) (S ?b)) with (Nat.eqb a b).
        by destruct (Nat.eqb (length ids) (length ps)).
      * rewrite Hcol, collection_inserted, decide_True by done.
        by rewrite <- app_assoc.
      * intros c' Hc'. rewrite Hother by done. simpl.
        by rewrite lookup_insert_ne.
      * apply NoDup_cons. split; [|done].
        intros Ho. apply (Hfresh o Ho). apply stored_ids_inserted. by left.
      * intros o' [->|Ho']%elem_of_cons; [by apply (assign_fresh _ _ _ Hassign)|].
        intros Hin. apply (Hfresh o' Ho'). apply stored_ids_inserted. by right.
      * intros o' Ho'. apply Hkeep, stored_ids_inserted. by right.
    + exists [], st. split; [simpl; lia|]. split; [|split; [|split; [|split; [|split]]]].
      * cbn [comprehension]. unfold bind at 1. unfold create_document at 1.
        by rewrite Hassign.
      * simpl. by rewrite app_nil_r.
      * done.
      * constructor.
      * intros o Ho. by apply elem_of_nil in Ho.
      * done.
Qed.

Lemma parse_all_run {S} (ids : list ObjectId) (s : S) :
  comprehension ObjectId_of_str (Bson.str <$> ids) s = (Ok (Bson.binary <$> ids), s).
Proof.
  induction ids as [|o ids IH]; [done|].
  rewrite !fmap_cons. cbn [comprehension].
  unfold bind at 1. unfold ObjectId_of_str at 1.
  rewrite BsonFacts.from_str_str. unfold ret at 1.
  unfold bind at 1. by rewrite IH.
Qed.

Lemma has_id_in_doc_oid ids (d : pydict) :
  has_id_in (Bson.binary <$> ids) d = true ↔ ∃ o, doc_oid d = Some o ∧ o ∈ ids.
Proof.
  unfold has_id_in, doc_oid. destruct (d !! "_id") as [[| | | | |o'| |]|];
    try (split; [done|by intros (? & ? & ?)]).
  rewrite bool_decide_eq_true. split.
  - intros (o & Heq & Ho)%list_elem_of_fmap. apply Bson.ObjectId_eq in Heq as ->. eauto.
  - intros (o & [= <-] & Ho). apply list_elem_of_fmap. eauto.
Qed.

Lemma elem_of_zip_with_with_id (ids : list ObjectId) (ps : list pydict) d :
  d ∈ zip_with with_id ids ps → ∃ o p, d = with_id o p ∧ o ∈ ids ∧ p ∈ ps.
Proof. intros (o & p & -> & Ho & Hp)%elem_of_zip_with. eauto. Qed.

Lemma sample_product_plain t d pr c i : plain (sample_product t d pr c i).
Proof. split; [done|]. unfold sample_product. plain_fields. Qed.

Lemma sample_plain : Forall plain sample.
Proof. unfold sample. repeat constructor; apply sample_product_plain. Qed.

Lemma api_shape_zip (ids : list ObjectId) (ps : list pydict) :
  Forall plain ps →
  (λ d, VDict (api_shape d)) <$> zip_with with_id ids ps
  = zip_with (λ o p, VDict (<["id" := VStr (Bson.str o)]> p)) ids ps.
Proof.
  intros Hps. revert ids. induction Hps as [|p ps [Hno Hoid] _ IH]; intros [|o ids]; simpl; try done.
  by rewrite api_shape_stored, IH.
Qed.

(** The encoder takes the catalog. *)
Lemma json_safe_sample : ∀ p, p ∈ sample → json_safe (VDict p) = true.
Proof.
  intros p Hp. unfold sample in Hp.
  repeat (apply elem_of_cons in Hp as [->|Hp]; [vm_compute; reflexivity|]).
  by apply elem_of_nil in Hp.
Qed.

Lemma json_safe_seeded (ids : list ObjectId) : json_safe (VList (App.seeded ids)) = true.
Proof.
  apply json_safe_list. unfold App.seeded.
  intros v (o & p & -> & _ & Hp)%elem_of_zip_with.
  apply json_safe_insert; [done|by apply json_safe_sample].
Qed.

(** The run of [seed_products] with storage available. *)
Lemma seed_products_run (st : storage) :
  ∃ (ids : list ObjectId) (st' : storage),
    (length ids ≤ 4)%nat
    ∧ POST_api_seed (Some st)
      = (if Nat.eqb (length ids) 4 then Response 201 (VList (App.seeded ids))
         else internal_server_error, Some st')
    ∧ collection st' "product"
      = (collection st "product" ++ zip_with with_id ids sample)%list
    ∧ (∀ c, c ≠ "product" → collections st' !! c = collections st !! c)
    ∧ NoDup ids
    ∧ (∀ o, o ∈ ids → o ∉ stored_ids st)
    ∧ (∀ o, o ∈ stored_ids st → o ∈ stored_ids st').
Proof.
  destruct (create_documents_run "product" sample st)
    as (ids & st' & Hlen & Hrun & Hcol & Hother & Hnodup & Hfresh & Hkeep).
  exists ids, st'. split; [done|]. split; [|done].
  unfold POST_api_seed, route, seed_products.
  unfold bind at 1. unfold db_is_None. cbv beta iota.
  unfold bind at 1. rewrite Hrun. change (length sample) with 4.
  destruct (Nat.eqb (length ids) 4); [|done].
  unfold bind at 1. rewrite parse_all_run.
  unfold bind at 1. unfold find_in. rewrite Hcol.
  rewrite filter_new.
  - unfold bind at 1. rewrite serialize_all_run. unfold ret.
    rewrite <- list_fmap_compose.
    change (value_of_doc ∘ (λ d, Some (api_shape d))) with (λ d, VDict (api_shape d)).
    rewrite (api_shape_zip _ _ sample_plain). fold (App.seeded ids).
    by rewrite json_safe_seeded.
  - intros d Hd. apply not_true_is_false. rewrite has_id_in_doc_oid.
    intros (o & Ho & Hin). apply (Hfresh o Hin).
    eauto using elem_of_stored_ids.
  - intros d (o & p & -> & Ho & _)%elem_of_zip_with_with_id.
    apply has_id_in_doc_oid. exists o. split; [|done]. apply doc_oid_with_id.
Qed.

(** C5, as the code has it. With storage available, [POST /api/seed]
    inserts the entries of the catalog in order, up to the first that the
    store refuses: the product collection grows by the entries taken,
    whatever it held, and no other collection changes. The identifiers
    the entries get are distinct, and their string forms differ from one
    another and from the string form of every identifier the store held.
    When all four entries are taken the answer is 201 with exactly these
    four documents, each with the string form of its identifier under
    [id]; otherwise it is 500, and the entries taken so far stay. *)




(* ===================================================================== *)
(** * Further properties *)
(* ===================================================================== *)

Import Diagnostics App Invariant.

(** ** More on the serialization helper *)

(** The run of [serialize_document] on any dict object. *)
Lemma serialize_document_any (h : heap) (l : loc) (d : pydict) :
  h !! l = Some d →
  serialize_document (Some l) h
  = if Nat.eqb (size d) 0 then (Ok (Some l), h)
    else (Ok (Some (fresh (dom h))), <[fresh (dom h) := api_shape d]> h).
Proof.
  intros Hl. destruct (Nat.eqb_spec (size d) 0) as [Hz|Hnz].
  - apply map_size_empty_iff in Hz as ->. by apply serialize_document_empty.
  - by apply serialize_document_run.
Qed.

Lemma serialize_id_not_ObjectId (v : value) :
  isinstance_ObjectId (serialize_id v) = false.
Proof. by destruct v. Qed.

Lemma api_shape_no_ObjectId (d : pydict) k o :
  api_shape d !! k ≠ Some (VObjectId o).
Proof.
  unfold api_shape. rewrite lookup_fmap.
  destruct (rename_id d !! k) as [v|]; simpl; [|done].
  intros [= Hv]. pose proof (serialize_id_not_ObjectId v) as Hn.
  by rewrite Hv in Hn.
Qed.

Lemma serialize_id_fixed (v : value) :
  isinstance_ObjectId v = false → serialize_id v = v.
Proof. by destruct v. Qed.

Lemma api_shape_fixed (d : pydict) :
  d !! "_id" = None → (∀ k o, d !! k ≠ Some (VObjectId o)) → api_shape d = d.
Proof.
  intros Hno Hoid. unfold api_shape, rename_id. rewrite Hno.
  apply map_eq; intros k. rewrite lookup_fmap.
  specialize (Hoid k). destruct (d !! k) as [[]|]; simpl; congruence.
Qed.

Lemma api_shape_idemp (d : pydict) : api_shape (api_shape d) = api_shape d.
Proof.
  unfold api_shape at 1. unfold rename_id.
  destruct (api_shape d !! "_id") as [v|] eqn:Hid.
  - assert (v = VNone) as ->.
    { unfold api_shape, rename_id in Hid. rewrite lookup_fmap in Hid.
      destruct (d !! "_id") as [w|] eqn:Hw.
      - destruct (is_None w) eqn:Hn.
        + rewrite Hw in Hid. destruct w; try done. by injection Hid as <-.
        + by rewrite lookup_insert_ne, lookup_delete_eq in Hid.
      - by rewrite Hw in Hid. }
    simpl. apply map_eq; intros k. rewrite lookup_fmap.
    pose proof (api_shape_no_ObjectId d k) as Hk.
    destruct (api_shape d !! k) as [[]|]; simpl; congruence.
  - apply map_eq; intros k. rewrite lookup_fmap.
    pose proof (api_shape_no_ObjectId d k) as Hk.
    destruct (api_shape d !! k) as [[]|]; simpl; congruence.
Qed.

(** X1. For [None] or any dict object the helper returns (it never
    raises, the guarded [pop] included); every object of the heap is left
    with the entries it had; the result is [None] exactly for [None], and
    otherwise refers to an object of the heap. *)
Theorem serialize_document_frame (h : heap) (doc : option loc) :
  (∀ l, doc = Some l → is_Some (h !! l)) →
  ∃ (r : option loc) (h' : heap),
    serialize_document doc h = (Ok r, h')
    ∧ (∀ l d, h !! l = Some d → h' !! l = Some d)
    ∧ (r = None ↔ doc = None)
    ∧ (∀ l', r = Some l' → is_Some (h' !! l')).
Proof.
  intros Hwf. destruct doc as [l|].
  - destruct (Hwf l eq_refl) as [d Hl].
    rewrite (serialize_document_any h l d Hl).
    destruct (Nat.eqb (size d) 0).
    + exists (Some l), h. split; [done|]. split; [done|]. split; [done|].
      intros l' [= <-]. eauto.
    + eexists _, _. split; [done|]. split; [|split; [done|]].
      * intros l0 d0 Hl0. rewrite lookup_insert_ne; [done|].
        intros <-. by rewrite fresh_heap in Hl0.
      * intros l' [= <-]. rewrite lookup_insert_eq. eauto.
  - exists None, h. repeat split; done.
Qed.

Lemma serialize_document_frame_witness :
  ∃ (r : option loc) (h' : heap),
    serialize_document (Some 1%positive) {[1%positive := Sample.stored_mug]} = (Ok r, h')
    ∧ h' !! 1%positive = Some Sample.stored_mug.
Proof.
  destruct (serialize_document_frame {[1%positive := Sample.stored_mug]} (Some 1%positive))
    as (r & h' & Hrun & Hframe & _).
  - intros l [= <-]. exists Sample.stored_mug. reflexivity.
  - exists r, h'. split; [exact Hrun|]. apply Hframe. reflexivity.
Defined.

(** X2. Whatever the dict holds, the dict the helper returns has no
    identifier among its top-level values. *)
Theorem serialize_document_no_ObjectId (h : heap) (l : loc) (d : pydict) :
  h !! l = Some d →
  ∃ (l' : loc) (h' : heap) (d' : pydict),
    serialize_document (Some l) h = (Ok (Some l'), h')
    ∧ h' !! l' = Some d'
    ∧ ∀ k o, d' !! k ≠ Some (VObjectId o).
Proof.
  intros Hl. rewrite (serialize_document_any h l d Hl).
  destruct (Nat.eqb_spec (size d) 0) as [Hz|Hnz].
  - exists l, h, d. repeat split; try done.
    apply map_size_empty_iff in Hz as ->. intros k o. by rewrite lookup_empty.
  - eexists _, _, _. split; [done|]. split; [apply lookup_insert_eq|].
    apply api_shape_no_ObjectId.
Qed.

Lemma serialize_document_no_ObjectId_witness :
  ∃ (l' : loc) (h' : heap) (d' : pydict),
    serialize_document (Some 1%positive) {[1%positive := Sample.stored_mug]}
    = (Ok (Some l'), h')
    ∧ h' !! l' = Some d'
    ∧ d' !! "supplier" ≠ Some (VObjectId Sample.oid2).
Proof.
  destruct (serialize_document_no_ObjectId {[1%positive := Sample.stored_mug]}
              1%positive Sample.stored_mug)
    as (l' & h' & d' & Hrun & Hl & Hno); [reflexivity|].
  exists l', h', d'. split; [exact Hrun|]. split; [exact Hl|apply Hno].
Defined.

(** X3. Serializing the result of a serialization changes nothing more:
    the second result has the entries of the first, for every dict. *)
Theorem serialize_document_twice (h : heap) (l : loc) (d : pydict) :
  h !! l = Some d →
  ∃ (l1 l2 : loc) (h1 h2 : heap) (d' : pydict),
    serialize_document (Some l) h = (Ok (Some l1), h1)
    ∧ serialize_document (Some l1) h1 = (Ok (Some l2), h2)
    ∧ h1 !! l1 = Some d'
    ∧ h2 !! l1 = Some d'
    ∧ h2 !! l2 = Some d'.
Proof.
  intros Hl. rewrite (serialize_document_any h l d Hl).
  destruct (Nat.eqb_spec (size d) 0) as [Hz|Hnz].
  - exists l, l, h, h, d. split; [done|].
    rewrite (serialize_document_any h l d Hl).
    destruct (Nat.eqb_spec (size d) 0); done.
  - set (l1 := fresh (dom h)). set (h1 := <[l1 := api_shape d]> h).
    assert (h1 !! l1 = Some (api_shape d)) as Hl1 by apply lookup_insert_eq.
    pose proof (serialize_document_any h1 l1 _ Hl1) as Hrun.
    destruct (Nat.eqb_spec (size (api_shape d)) 0) as [Hz'|Hnz'].
    + exists l1, l1, h1, h1, (api_shape d). done.
    + eexists l1, _, h1, _, (api_shape d). split; [done|]. split; [exact Hrun|].
      split; [done|]. split.
      * rewrite lookup_insert_ne; [done|]. intros E.
        pose proof (fresh_heap h1) as Hf. rewrite E in Hf. congruence.
      * by rewrite lookup_insert_eq, api_shape_idemp.
Qed.

Lemma serialize_document_twice_witness :
  ∃ (l1 l2 : loc) (h1 h2 : heap) (d' : pydict),
    serialize_document (Some 1%positive) {[1%positive := Sample.stored_mug]}
    = (Ok (Some l1), h1)
    ∧ serialize_document (Some l1) h1 = (Ok (Some l2), h2)
    ∧ h1 !! l1 = Some d'
    ∧ h2 !! l1 = Some d'
    ∧ h2 !! l2 = Some d'.
Proof.
  apply (serialize_document_twice {[1%positive := Sample.stored_mug]} 1%positive
           Sample.stored_mug).
  reflexivity.
Defined.

Lemma dom_rename_id (d : pydict) (v : value) :
  d !! "_id" = Some v → is_None v = false →
  dom (rename_id d) = {["id"]} ∪ dom d ∖ {["_id"]}.
Proof.
  intros Hid Hn. unfold rename_id. rewrite Hid, Hn.
  by rewrite dom_insert_L, dom_delete_L.
Qed.

Lemma size_rename_id (d : pydict) : (size (rename_id d) ≤ size d)%nat.
Proof.
  unfold rename_id. destruct (d !! "_id") as [v|] eqn:Hid; [|done].
  destruct (is_None v); [done|].
  rewrite map_size_insert, map_size_delete, Hid.
  assert (size d ≠ 0) by eauto using size_pos_lookup.
  destruct (delete "_id" d !! "id"); simpl; lia.
Qed.

(** X4. The keys of the result: with an [_id] that is not [None], the
    keys of the argument with [_id] replaced by [id]; otherwise the keys
    of the argument. The result never has more entries than the
    argument. *)
Theorem serialize_document_keys (h : heap) (l : loc) (d : pydict) :
  h !! l = Some d →
  ∃ (l' : loc) (h' : heap) (d' : pydict),
    serialize_document (Some l) h = (Ok (Some l'), h')
    ∧ h' !! l' = Some d'
    ∧ (∀ v, d !! "_id" = Some v → v ≠ VNone →
         dom d' = {["id"]} ∪ dom d ∖ {["_id"]})
    ∧ (d !! "_id" = None ∨ d !! "_id" = Some VNone → dom d' = dom d)
    ∧ (size d' ≤ size d)%nat.
Proof.
  intros Hl. rewrite (serialize_document_any h l d Hl).
  destruct (Nat.eqb_spec (size d) 0) as [Hz|Hnz].
  - exists l, h, d. split; [done|]. split; [done|].
    apply map_size_empty_iff in Hz as ->.
    split; [intros v Hv; by rewrite lookup_empty in Hv|done].
  - eexists _, _, _. split; [done|]. split; [apply lookup_insert_eq|].
    unfold api_shape. rewrite dom_fmap_L, map_size_fmap.
    split; [|split; [|apply size_rename_id]].
    + intros v Hid Hv. apply (dom_rename_id d v Hid). by destruct v.
    + unfold rename_id. by intros [->| ->].
Qed.

Lemma serialize_document_keys_witness :
  ∃ (l' : loc) (h' : heap) (d' : pydict),
    serialize_document (Some 1%positive) {[1%positive := Sample.stored_mug]}
    = (Ok (Some l'), h')
    ∧ h' !! l' = Some d'
    ∧ dom d' = {["id"]} ∪ dom Sample.stored_mug ∖ {["_id"]}.
Proof.
  destruct (serialize_document_keys {[1%positive := Sample.stored_mug]}
              1%positive Sample.stored_mug)
    as (l' & h' & d' & Hrun & Hl & Hdom & _); [reflexivity|].
  exists l', h', d'. split; [exact Hrun|]. split; [exact Hl|].
  apply (Hdom (VObjectId Sample.oid1)); [reflexivity|discriminate].
Defined.

(** X5. Any [_id] that is not [None] is renamed to [id]; only an
    identifier is turned into a string, any other value (a string or a
    number used as key) is kept as it is. *)
Theorem serialize_document_renames_any_id (h : heap) (l : loc) (d : pydict) (v : value) :
  h !! l = Some d →
  d !! "_id" = Some v →
  v ≠ VNone →
  ∃ (l' : loc) (d' : pydict),
    serialize_document (Some l) h = (Ok (Some l'), <[l' := d']> h)
    ∧ d' !! "_id" = None
    ∧ d' !! "id" = Some (serialize_id v)
    ∧ (isinstance_ObjectId v = false → d' !! "id" = Some v).
Proof.
  intros Hl Hid Hv. exists (fresh (dom h)), (api_shape d).
  split; [apply serialize_document_run; eauto using size_pos_lookup|].
  assert (is_None v = false) as Hn by (by destruct v).
  assert (api_shape d !! "id" = Some (serialize_id v)) as Hres.
  { unfold api_shape, rename_id. rewrite Hid, Hn, lookup_fmap, lookup_insert_eq.
    simpl. f_equal. by destruct v. }
  split.
  - unfold api_shape, rename_id. rewrite Hid, Hn.
    by rewrite lookup_fmap, lookup_insert_ne, lookup_delete_eq.
  - split; [done|]. intros Hno. by rewrite Hres, serialize_id_fixed.
Qed.

Lemma serialize_document_renames_any_id_witness :
  ∃ (l' : loc) (d' : pydict),
    serialize_document (Some 1%positive) {[1%positive := Sample2.legacy]}
    = (Ok (Some l'), <[l' := d']> {[1%positive := Sample2.legacy]})
    ∧ d' !! "_id" = None
    ∧ d' !! "id" = Some (VStr "sku-1").
Proof.
  destruct (serialize_document_renames_any_id {[1%positive := Sample2.legacy]}
              1%positive Sample2.legacy (VStr "sku-1"))
    as (l' & d' & Hrun & Hno & _ & Hkept);
    [reflexivity | reflexivity | discriminate |].
  exists l', d'. split; [exact Hrun|]. split; [exact Hno|].
  apply Hkept. reflexivity.
Defined.

(** ** The diagnostic route *)

Lemma dom_initial_response :
  dom initial_response
  = {["backend"; "database"; "database_url"; "database_name";
      "connection_status"; "collections"]}.
Proof. unfold initial_response. rewrite !dom_insert_L, dom_empty_L. set_solver. Qed.

Lemma json_safe_initial_response : json_safe (VDict initial_response) = true.
Proof.
  unfold initial_response. repeat (apply json_safe_insert; [done|]).
  apply json_safe_empty.
Qed.

(** The encoder takes the payload of the diagnostic route, whatever was
    probed: its values are strings, [None] and a list of names. *)
Lemma json_safe_test_database (w : world) (p : probe) :
  json_safe (VDict (test_database_response w p)) = true.
Proof.
  unfold test_database_response, test_database_body.
  destruct (bool_decide (w ≠ None)); [|apply json_safe_initial_response].
  unfold try_, and_then, assign, name_or, call_list_collection_names, pure, throw.
  destruct (name p) as [|s|msg]; destruct (list_collection_names p) as [e|all];
    cbn [snd fst];
    repeat (apply json_safe_insert; [done || apply json_safe_strs|]);
    apply json_safe_initial_response.
Qed.

Lemma test_database_run (w : world) (p : probe) :
  route 200 (test_database p) w = (Response 200 (VDict (test_database_response w p)), w).
Proof. unfold route, test_database. by rewrite json_safe_test_database. Qed.

Lemma read_root_run (w : world) :
  route 200 read_root w
  = (Response 200 (VDict {["message" := VStr "Ecommerce backend is running"]}), w).
Proof. reflexivity. Qed.

(** X6. [GET /test] answers 200 in every state and for whatever the
    environment and the driver do, and leaves the state as it is. The
    payload has the six keys of the initial one and the same [backend];
    [collections] holds at most ten names, and when it is not empty
    storage is there and the names are the first ten the driver listed.
    Without storage the payload is the initial one. *)
Theorem test_database_payload (w : world) (p : probe) :
  ∃ (d : pydict) (names : list string),
    route 200 (test_database p) w = (Response 200 (VDict d), w)
    ∧ dom d = dom initial_response
    ∧ d !! "backend" = initial_response !! "backend"
    ∧ d !! "collections" = Some (VList (VStr <$> names))
    ∧ (length names ≤ 10)%nat
    ∧ (names = []
       ∨ w ≠ None ∧ ∃ all, list_collection_names p = inr all ∧ names = take 10 all)
    ∧ (w = None → d = initial_response).
Proof.
  rewrite test_database_run.
  unfold test_database_response, test_database_body.
  destruct w as [st|].
  - rewrite bool_decide_eq_true_2 by done.
    unfold try_, and_then, assign, name_or, call_list_collection_names, pure, throw.
    destruct (name p) as [|s|msg]; destruct (list_collection_names p) as [e|all] eqn:Hall;
      cbn [snd fst].
    all: try (eexists _, (take 10 all); split; [reflexivity|];
              split; [rewrite dom_initial_response, !dom_insert_L, dom_initial_response; set_solver|];
              split; [reflexivity|]; split; [reflexivity|];
              split; [rewrite length_take; lia|]; split; [right; eauto|done]).
    all: eexists _, []; split; [reflexivity|];
         (split; [rewrite dom_initial_response, !dom_insert_L, dom_initial_response; set_solver|]);
         split; [reflexivity|]; split; [reflexivity|];
         split; [simpl; lia|]; split; [by left|done].
  - rewrite bool_decide_eq_false_2 by (intros H; by apply H).
    exists initial_response, []. split; [reflexivity|].
    repeat split; try done; [simpl; lia | by left].
Qed.

(** ** What every request keeps *)

Lemma grows_refl st : grows st st.
Proof. split; [intros c|]; done. Qed.

Lemma grows_trans st1 st2 st3 : grows st1 st2 → grows st2 st3 → grows st1 st3.
Proof.
  intros [H1 H1'] [H2 H2']. split.
  - intros c. etrans; [apply H1|apply H2].
  - etrans; [apply H2'|apply H1'].
Qed.

Lemma grows_inserted c o data rest st :
  (o :: rest) `suffix_of` identifiers st → grows st (inserted c o data rest st).
Proof.
  intros Hids. split.
  - intros c'. rewrite collection_inserted. destruct (decide (c = c')) as [->|]; [|done].
    by apply prefix_app_r.
  - simpl. etrans; [|exact Hids]. by apply suffix_cons_r.
Qed.

Lemma store_ok_inserted c o data rest st :
  identifiers st = o :: rest → store_ok st → store_ok (inserted c o data rest st).
Proof.
  intros Hids [Hsupply Hfresh Hunique Hdocs].
  rewrite Hids in Hsupply, Hfresh. apply NoDup_cons in Hsupply as [Ho Hrest].
  pose proof (stored_ids_inserted c o data rest st) as Hstored.
  split.
  - done.
  - simpl. intros o' Ho'. rewrite Hstored. intros [->|Hin]; [done|].
    apply (Hfresh o'); [by apply list_elem_of_further|done].
  - intros c'. rewrite collection_inserted. destruct (decide (c = c')) as [->|]; [|done].
    rewrite omap_app. simpl. rewrite doc_oid_with_id. apply NoDup_app.
    split; [done|]. split; [|apply NoDup_singleton].
    intros o' Ho' ->%list_elem_of_singleton.
    apply (Hfresh o (list_elem_of_here _ _)).
    apply list_elem_of_omap in Ho' as (d & Hd & Hid).
    apply elem_of_stored_ids_iff. eauto.
  - intros c' d. rewrite collection_inserted. destruct (decide (c = c')) as [->|]; [|eauto].
    intros [Hd| ->%list_elem_of_singleton]%elem_of_app; [eauto|].
    rewrite doc_oid_with_id. eauto.
Qed.

(** In a store in order the next identifier of the supply is the one
    assigned. *)
Lemma assign_ok (st : storage) o rest :
  store_ok st → Database.assign st = Some (o, rest) → identifiers st = o :: rest.
Proof.
  intros Hok. unfold Database.assign. destruct (identifiers st) as [|x xs] eqn:Hids; [done|].
  rewrite skip_used_head; [by intros [= -> ->]|].
  apply (ok_fresh st Hok). rewrite Hids. apply list_elem_of_here.
Qed.

Lemma evolves_refl st : evolves st st.
Proof. split; [apply grows_refl|done]. Qed.

Lemma evolves_trans st1 st2 st3 : evolves st1 st2 → evolves st2 st3 → evolves st1 st3.
Proof. intros [G1 K1] [G2 K2]. split; [by eapply grows_trans|auto]. Qed.

Lemma steps_same {A} (m : Py world A) :
  (∀ st, ∃ r, m (Some st) = (r, Some st)) → steps m.
Proof. intros H st. destruct (H st) as [r Hr]. exists r, st. split; [done|apply evolves_refl]. Qed.

Lemma steps_ret {A} (a : A) : steps (ret a).
Proof. apply steps_same. intros st. by eexists. Qed.

Lemma steps_raise {A} e : steps (raise e : Py world A).
Proof. apply steps_same. intros st. by eexists. Qed.

Lemma steps_lift {A} (r : result A) : steps (lift r).
Proof. apply steps_same. intros st. by eexists. Qed.

Lemma steps_bind {A B} (m : Py world A) (k : A → Py world B) :
  steps m → (∀ a, steps (k a)) → steps (bind m k).
Proof.
  intros Hm Hk st. destruct (Hm st) as (r & st1 & Hrun & Hev).
  unfold bind. rewrite Hrun. destruct r as [a|e].
  - destruct (Hk a st1) as (r2 & st2 & Hrun2 & Hev2).
    exists r2, st2. split; [done|]. by eapply evolves_trans.
  - by exists (Raise e), st1.
Qed.

Lemma steps_try_except {A} (m : Py world A) e : steps m → steps (try_except m e).
Proof.
  intros Hm st. destruct (Hm st) as (r & st1 & Hrun & Hev).
  unfold try_except. rewrite Hrun. destruct r; eauto.
Qed.

Lemma steps_comprehension {A B} (f : A → Py world B) (xs : list A) :
  (∀ x, steps (f x)) → steps (comprehension f xs).
Proof.
  intros Hf. induction xs as [|x xs IH]; simpl; [apply steps_ret|].
  apply steps_bind; [apply Hf|]. intros y.
  apply steps_bind; [apply IH|]. intros ys. apply steps_ret.
Qed.

Lemma steps_db_is_None : steps db_is_None.
Proof. apply steps_same. intros st. by eexists. Qed.

Lemma steps_db_truthy : steps db_truthy.
Proof. apply steps_same. intros st. by eexists. Qed.

Lemma steps_get_documents c : steps (get_documents c).
Proof. apply steps_same. intros st. by eexists. Qed.

Lemma steps_find_one c o : steps (find_one c o).
Proof. apply steps_same. intros st. by eexists. Qed.

Lemma steps_find_in c os : steps (find_in c os).
Proof. apply steps_same. intros st. by eexists. Qed.

Lemma steps_ObjectId_of_str s : steps (ObjectId_of_str s).
Proof.
  apply steps_same. intros st. unfold ObjectId_of_str.
  destruct (Bson.from_str s); by eexists.
Qed.

Lemma steps_serialize_detached doc : steps (serialize_detached doc).
Proof. apply steps_same. intros st. rewrite serialize_detached_run. by eexists. Qed.

Lemma steps_create_document c data : steps (create_document c data).
Proof.
  intros st. unfold create_document.
  destruct (Database.assign st) as [[o rest]|] eqn:Hassign.
  - eexists _, _. split; [reflexivity|]. fold (inserted c o data rest st).
    split; [by apply grows_inserted, assign_suffix|].
    intros Hok. apply store_ok_inserted; [|done]. by apply assign_ok.
  - exists (Raise (StorageError "no identifier")), st. split; [done|apply evolves_refl].
Qed.

Ltac steps_tac :=
  repeat first
    [ apply steps_ret | apply steps_raise | apply steps_lift
    | apply steps_db_is_None | apply steps_db_truthy | apply steps_get_documents
    | apply steps_find_one | apply steps_find_in | apply steps_ObjectId_of_str
    | apply steps_serialize_detached | apply steps_create_document
    | apply steps_try_except
    | apply steps_comprehension; intros
    | apply steps_bind; [|intros]
    | match goal with
      | |- steps (if ?b then _ else _) => destruct b
      | |- steps (match ?x with _ => _ end) => destruct x
      end ].

Lemma steps_list_products : steps list_products.
Proof. unfold list_products. steps_tac. Qed.

Lemma steps_get_product pid : steps (get_product pid).
Proof. unfold get_product. steps_tac. Qed.

Lemma steps_create_product p : steps (create_product p).
Proof. unfold create_product. steps_tac. Qed.

Lemma steps_seed_products : steps seed_products.
Proof. unfold seed_products. steps_tac. Qed.

Lemma steps_create_order alg order : steps (create_order alg order).
Proof. unfold create_order. steps_tac. Qed.

Lemma steps_route code (m : Py world value) st :
  steps m → ∃ resp st', route code m (Some st) = (resp, Some st') ∧ evolves st st'.
Proof.
  intros Hm. destruct (Hm st) as (r & st' & Hrun & Hev).
  unfold route. rewrite Hrun. destruct r as [v|[]]; eauto.
Qed.

Lemma handle_evolves alg req st :
  ∃ resp st', handle alg req (Some st) = (resp, Some st') ∧ evolves st st'.
Proof.
  destruct req; simpl.
  - exists (Response 200 (VDict {["message" := VStr "Ecommerce backend is running"]})), st.
    split; [apply read_root_run|apply evolves_refl].
  - eexists _, st. split; [apply test_database_run|apply evolves_refl].
  - apply steps_route, steps_list_products.
  - apply steps_route, steps_get_product.
  - apply steps_route, steps_create_product.
  - apply steps_route, steps_seed_products.
  - apply steps_route, steps_create_order.
Qed.

Lemma serve_evolves alg reqs : ∀ st,
  ∃ resps st', serve alg reqs (Some st) = (resps, Some st') ∧ evolves st st'.
Proof.
  induction reqs as [|req reqs IH]; intros st.
  - exists [], st. split; [done|apply evolves_refl].
  - destruct (handle_evolves alg req st) as (r & st1 & Hrun & Hev).
    destruct (IH st1) as (rs & st2 & Hrun2 & Hev2).
    exists (r :: rs), st2. simpl. rewrite Hrun, Hrun2.
    split; [done|by eapply evolves_trans].
Qed.

Lemma store_okb_ok (st : storage) : store_okb st = true → store_ok st.
Proof.
  unfold store_okb. intros [[Hsupply Hfresh]%andb_prop Hcols]%andb_prop.
  apply bool_decide_eq_true_1 in Hsupply.
  rewrite forallb_forall in Hfresh, Hcols.
  assert (∀ c, collection st c = [] ∨ (c, collection st c) ∈ map_to_list (collections st))
    as Hcol.
  { intros c. unfold collection. destruct (collections st !! c) as [docs|] eqn:Hc;
      [right; by apply elem_of_map_to_list|by left]. }
  split.
  - done.
  - intros o Ho%list_elem_of_In. specialize (Hfresh o Ho).
    by apply bool_decide_eq_true_1 in Hfresh.
  - intros c. destruct (Hcol c) as [->|Hin%list_elem_of_In]; [constructor|].
    apply Hcols in Hin as [Hnd _]%andb_prop. by apply bool_decide_eq_true_1 in Hnd.
  - intros c d Hd. destruct (Hcol c) as [Hnil|Hin%list_elem_of_In].
    { rewrite Hnil in Hd. by apply elem_of_nil in Hd. }
    apply Hcols in Hin as [_ Hall]%andb_prop. simpl in Hall.
    rewrite forallb_forall in Hall. apply list_elem_of_In in Hd.
    specialize (Hall d Hd). by apply bool_decide_eq_true_1 in Hall.
Qed.

(** X7. Whatever requests are served, one response comes back per
    request, storage stays in place, and a store in order stays in order:
    no identifier is ever assigned twice, and every stored document keeps
    an identifier that is unique in its collection. *)
Theorem serve_keeps_store_ok (alg : Numeric.summation) (reqs : list request)
    (st : storage) :
  store_ok st →
  ∃ (resps : list response) (st' : storage),
    serve alg reqs (Some st) = (resps, Some st')
    ∧ length resps = length reqs
    ∧ store_ok st'.
Proof.
  intros Hok. destruct (serve_evolves alg reqs st) as (rs & st' & Hrun & _ & Hkeep).
  exists rs, st'. split; [done|]. split; [|auto].
  clear Hkeep Hok. revert st rs st' Hrun.
  induction reqs as [|req reqs IH]; intros st rs st' Hrun; simpl in *.
  - by injection Hrun as <- _.
  - destruct (handle alg req (Some st)) as [r w1] eqn:H1.
    destruct (handle_evolves alg req st) as (r' & st1 & H1' & _).
    rewrite H1 in H1'. injection H1' as -> ->.
    destruct (serve alg reqs (Some st1)) as [rs' w2] eqn:H2.
    injection Hrun as <- ->. simpl. f_equal. eauto.
Qed.

Lemma serve_keeps_store_ok_witness :
  ∃ (resps : list response) (st' : storage),
    serve Numeric.Plain
      [Seed; CreateProduct Sample.mug; CreateOrder Sample.order; ListProducts;
       GetProduct "not-an-id"]
      (Some Sample2.warehouse)
    = (resps, Some st')
    ∧ length resps = 5
    ∧ store_ok st'.
Proof.
  apply (serve_keeps_store_ok Numeric.Plain
           [Seed; CreateProduct Sample.mug; CreateOrder Sample.order; ListProducts;
            GetProduct "not-an-id"]
           Sample2.warehouse).
  apply store_okb_ok. vm_compute. reflexivity.
Defined.

(** X8. The routes only insert: whatever requests are served, every
    collection keeps the documents it had, unchanged and in order, as a
    prefix, and the identifiers to come are a suffix of the old ones.
    Without storage there is none afterwards either. *)
Theorem serve_insert_only (alg : Numeric.summation) (reqs : list request) :
  (∀ st : storage,
     ∃ st' : storage,
       (serve alg reqs (Some st)).2 = Some st'
       ∧ (∀ c, collection st c `prefix_of` collection st' c)
       ∧ identifiers st' `suffix_of` identifiers st)
  ∧ (serve alg reqs None).2 = None.
Proof.
  split.
  - intros st. destruct (serve_evolves alg reqs st) as (rs & st' & Hrun & [Hc Hi] & _).
    exists st'. rewrite Hrun. done.
  - induction reqs as [|req reqs IH]; [done|]. simpl.
    assert ((handle alg req None).2 = None) as Hnone.
    { destruct req; try reflexivity. }
    destruct (handle alg req None) as [r w1]. simpl in Hnone. subst w1.
    destruct (serve alg reqs None) as [rs w2]. done.
Qed.

(** ** Requests one after the other *)

(** A creation that is answered 201 was given a finite price, and the
    store took the document. *)
Lemma create_product_created (product : ProductIn.t) (st : storage) :
  status_of (POST_api_products product (Some st)).1 = 201 →
  PrimFloat.is_finite (ProductIn.price product) = true
  ∧ ∃ oid rest, Database.assign st = Some (oid, rest).
Proof.
  rewrite create_product_run.
  destruct (Database.assign st) as [[oid rest]|]; [|discriminate].
  destruct (PrimFloat.is_finite _); [eauto|discriminate].
Qed.

Lemma find_inserted c o data rest st :
  o ∉ stored_ids st →
  head (List.filter (has_id (Bson.binary o)) (collection (inserted c o data rest st) c))
  = Some (with_id o data).
Proof.
  intros Hfresh. rewrite collection_inserted, decide_True by done.
  rewrite (filter_new _ _ [with_id o data]); [done| |].
  - by apply fresh_no_match.
  - intros x ->%list_elem_of_singleton. apply has_id_with_id.
Qed.

(** X11. A product whose creation is answered 201 can be fetched under
    the [id] of the response, and the two responses carry the same
    document. *)
Theorem create_product_then_get (product : ProductIn.t) (st : storage) :
  status_of (POST_api_products product (Some st)).1 = 201 →
  ∃ (doc : pydict) (id : string) (st' : storage),
    serve Numeric.Plain [CreateProduct product; GetProduct id] (Some st)
    = ([Response 201 (VDict doc); Response 200 (VDict doc)], Some st')
    ∧ doc !! "id" = Some (VStr id).
Proof.
  intros (Hfinite & oid & rest & Hassign)%create_product_created.
  exists (<["id" := VStr (Bson.str oid)]> (ProductIn.model_dump product)), (Bson.str oid).
  eexists. split; [|apply lookup_insert_eq].
  cbn [serve handle]. rewrite create_product_run, Hassign, Hfinite.
  fold (inserted "product" oid (ProductIn.model_dump product) rest st).
  rewrite get_product_run, BsonFacts.from_str_str.
  rewrite find_inserted by (by apply (assign_fresh _ _ _ Hassign)).
  rewrite api_shape_stored; [|done|apply ProductIn_plain].
  by rewrite json_safe_product, Hfinite.
Qed.

Lemma create_product_then_get_witness :
  ∃ (doc : pydict) (id : string) (st' : storage),
    serve Numeric.Plain [CreateProduct Sample.mug; GetProduct id] (Some Sample.shop)
    = ([Response 201 (VDict doc); Response 200 (VDict doc)], Some st')
    ∧ doc !! "id" = Some (VStr id).
Proof.
  apply (create_product_then_get Sample.mug Sample.shop).
  vm_compute. reflexivity.
Defined.

Lemma listing_200 (docs : list pydict) :
  status_of (listing docs) = 200 →
  forallb (λ d, json_safe (VDict (api_shape d))) docs = true.
Proof. unfold listing. destruct (forallb _ _); [done|discriminate]. Qed.

(** X12. When a product is created (201) in a store whose list of
    products can be sent (200), the list afterwards is the list as it was
    with the created document added at its end. *)
Theorem create_product_then_list (product : ProductIn.t) (st : storage) :
  status_of (POST_api_products product (Some st)).1 = 201 →
  status_of (GET_api_products (Some st)).1 = 200 →
  ∃ (before : list value) (created : value) (st' : storage),
    GET_api_products (Some st) = (Response 200 (VList before), Some st)
    ∧ serve Numeric.Plain [CreateProduct product; ListProducts] (Some st)
      = ([Response 201 created; Response 200 (VList (before ++ [created]))], Some st').
Proof.
  intros (Hfinite & oid & rest & Hassign)%create_product_created.
  rewrite list_products_run. intros Hbefore%listing_200.
  eexists _, _, _. split; [unfold listing; by rewrite Hbefore|].
  cbn [serve handle]. rewrite create_product_run, Hassign, Hfinite.
  fold (inserted "product" oid (ProductIn.model_dump product) rest st).
  rewrite list_products_run, collection_inserted, decide_True by done.
  unfold listing. rewrite forallb_app, Hbefore, fmap_app. simpl.
  rewrite api_shape_stored; [|done|apply ProductIn_plain].
  change (map_fold _ true ?d) with (json_safe (VDict d)).
  by rewrite json_safe_product, Hfinite.
Qed.

Lemma create_product_then_list_witness :
  ∃ (before : list value) (created : value) (st' : storage),
    GET_api_products (Some Sample.shop) = (Response 200 (VList before), Some Sample.shop)
    ∧ serve Numeric.Plain [CreateProduct Sample.mug; ListProducts] (Some Sample.shop)
      = ([Response 201 created; Response 200 (VList (before ++ [created]))], Some st').
Proof.
  apply (create_product_then_list Sample.mug Sample.shop);
    vm_compute; reflexivity.
Defined.

Lemma head_filter_unique (docs : list pydict) (d : pydict) (o : ObjectId) :
  NoDup (omap doc_oid docs) → d ∈ docs → doc_oid d = Some o →
  head (List.filter (has_id (Bson.binary o)) docs) = Some d.
Proof.
  induction docs as [|x docs IH]; intros Hnd Hd Ho; [by apply elem_of_nil in Hd|].
  simpl in *. destruct (has_id (Bson.binary o) x) eqn:Hx.
  - simpl. f_equal. apply elem_of_cons in Hd as [->|Hd]; [done|].
    apply has_id_doc_oid in Hx. rewrite Hx in Hnd.
    apply NoDup_cons in Hnd as [Hnotin _]. destruct Hnotin.
    apply list_elem_of_omap. eauto.
  - apply elem_of_cons in Hd as [->|Hd].
    + apply has_id_doc_oid in Ho. congruence.
    + apply IH; [|done|done].
      destruct (doc_oid x); [by apply NoDup_cons in Hnd as [_ ?]|done].
Qed.

(** X13. In a store in order whose list of products can be sent (200),
    every entry of the list has an [id], and fetching that [id] returns
    exactly that entry. *)
Theorem listed_product_can_be_fetched (st : storage) :
  store_ok st →
  status_of (GET_api_products (Some st)).1 = 200 →
  ∃ listed : list value,
    GET_api_products (Some st) = (Response 200 (VList listed), Some st)
    ∧ ∀ v, v ∈ listed →
        ∃ (doc : pydict) (id : string),
          v = VDict doc
          ∧ doc !! "id" = Some (VStr id)
          ∧ GET_api_product id (Some st) = (Response 200 v, Some st).
Proof.
  intros Hok. rewrite list_products_run. intros Hsafe%listing_200.
  eexists. split; [unfold listing; by rewrite Hsafe|].
  intros v (d & -> & Hd)%list_elem_of_fmap.
  destruct (ok_ids st Hok "product" d Hd) as [o Ho].
  exists (api_shape d), (Bson.str o). split; [done|]. split.
  - unfold doc_oid in Ho. destruct (d !! "_id") as [[]|] eqn:Hid; try done.
    injection Ho as ->. unfold api_shape, rename_id. rewrite Hid. simpl.
    by rewrite lookup_fmap, lookup_insert_eq.
  - rewrite get_product_run, BsonFacts.from_str_str.
    rewrite (head_filter_unique _ d o (ok_unique st Hok "product")) by done.
    rewrite forallb_forall in Hsafe. rewrite Hsafe; [done|]. by apply list_elem_of_In.
Qed.

Lemma listed_product_can_be_fetched_witness :
  ∃ listed : list value,
    GET_api_products (Some Sample.shop) = (Response 200 (VList listed), Some Sample.shop)
    ∧ ∀ v, v ∈ listed →
        ∃ (doc : pydict) (id : string),
          v = VDict doc
          ∧ doc !! "id" = Some (VStr id)
          ∧ GET_api_product id (Some Sample.shop) = (Response 200 v, Some Sample.shop).
Proof.
  apply (listed_product_can_be_fetched Sample.shop).
  - apply store_okb_ok. vm_compute. reflexivity.
  - vm_compute. reflexivity.
Defined.

(** ** Seeding twice *)

Lemma with_id_zipped (ids : list ObjectId) (ps : list pydict) o :
  o ∈ ids → (length ids ≤ length ps)%nat → ∃ p, with_id o p ∈ zip_with with_id ids ps.
Proof.
  revert ps. induction ids as [|x ids IH]; intros [|p ps] Ho Hlen; simpl in *;
    try (by apply elem_of_nil in Ho); try lia.
  apply elem_of_cons in Ho as [->|Ho].
  - exists p. apply list_elem_of_here.
  - destruct (IH ps Ho) as [p' Hp']; [lia|]. exists p'. by apply list_elem_of_further.
Qed.

(** A seed that is answered 201 took the four entries of the catalog. *)
Lemma seed_products_created (st : storage) :
  status_of (POST_api_seed (Some st)).1 = 201 →
  ∃ (ids : list ObjectId) (st' : storage),
    length ids = 4
    ∧ POST_api_seed (Some st) = (Response 201 (VList (seeded ids)), Some st')
    ∧ collection st' "product"
      = (collection st "product" ++ zip_with with_id ids sample)%list
    ∧ NoDup ids
    ∧ (∀ o, o ∈ ids → o ∉ stored_ids st)
    ∧ (∀ o, o ∈ ids → o ∈ stored_ids st').
Proof.
  destruct (seed_products_run st)
    as (ids & st' & _ & Hrun & Hcol & _ & Hnodup & Hfresh & _).
  rewrite Hrun. destruct (Nat.eqb_spec (length ids) 4) as [Hfour|]; [|discriminate].
  intros _. exists ids, st'. repeat (split; [done|]).
  intros o Ho. apply elem_of_stored_ids_iff.
  destruct (with_id_zipped ids sample o Ho) as [p Hp]; [by rewrite Hfour|].
  exists "product", (with_id o p). split; [|apply doc_oid_with_id].
  rewrite Hcol. apply elem_of_app. by right.
Qed.

(** X14. When two seeds in a row are both answered 201, the catalog is
    inserted twice: each response carries the four documents of its own
    call, the eight identifiers are distinct (the string forms of the
    second call differ from those of the first), and the collection ends
    with both copies. *)
Theorem seed_twice (alg : Numeric.summation) (st : storage) :
  status_of <$> (serve alg [Seed; Seed] (Some st)).1 = [201; 201] →
  ∃ (ids1 ids2 : list ObjectId) (st' : storage),
    length ids1 = 4 ∧ length ids2 = 4
    ∧ serve alg [Seed; Seed] (Some st)
      = ([Response 201 (VList (seeded ids1)); Response 201 (VList (seeded ids2))],
         Some st')
    ∧ collection st' "product"
      = (collection st "product"
         ++ zip_with with_id ids1 sample ++ zip_with with_id ids2 sample)%list
    ∧ NoDup (Bson.str <$> (ids1 ++ ids2)%list)
    ∧ (∀ o, o ∈ ids1 → Bson.str o ∉ Bson.str <$> ids2).
Proof.
  cbn [serve handle].
  destruct (POST_api_seed (Some st)) as [r1 w1] eqn:Hrun1.
  destruct (POST_api_seed w1) as [r2 w2] eqn:Hrun2.
  cbn [fst]. intros [= Hs1 Hs2].
  destruct (seed_products_created st)
    as (ids1 & st1 & Hlen1 & Hrun1' & Hcol1 & Hnodup1 & Hfresh1 & Hin1);
    [by rewrite Hrun1|].
  rewrite Hrun1 in Hrun1'. injection Hrun1' as -> ->.
  destruct (seed_products_created st1)
    as (ids2 & st2 & Hlen2 & Hrun2' & Hcol2 & Hnodup2 & Hfresh2 & _);
    [by rewrite Hrun2|].
  rewrite Hrun2 in Hrun2'. injection Hrun2' as -> ->.
  assert (∀ o, o ∈ ids1 → o ∉ ids2) as Hdisjoint.
  { intros o Ho1 Ho2. apply (Hfresh2 o Ho2). by apply Hin1. }
  exists ids1, ids2, st2. split; [done|]. split; [done|]. split; [done|].
  split; [by rewrite Hcol2, Hcol1, <- app_assoc|]. split.
  - apply (NoDup_fmap_2_strong _); [intros x y _ _; apply BsonFacts.str_inj|].
    apply NoDup_app. done.
  - intros o Ho (o' & Heq & Ho')%list_elem_of_fmap.
    apply BsonFacts.str_inj in Heq as ->. by apply (Hdisjoint o').
Qed.

Lemma seed_twice_witness :
  ∃ (ids1 ids2 : list ObjectId) (st' : storage),
    length ids1 = 4 ∧ length ids2 = 4
    ∧ serve Numeric.Plain [Seed; Seed] (Some Sample2.warehouse)
      = ([Response 201 (VList (seeded ids1)); Response 201 (VList (seeded ids2))],
         Some st')
    ∧ length (collection st' "product") = 9
    ∧ NoDup (Bson.str <$> (ids1 ++ ids2)%list).
Proof.
  destruct (seed_twice Numeric.Plain Sample2.warehouse)
    as (ids1 & ids2 & st' & Hlen1 & Hlen2 & Hrun & Hcol & Hnodup & _).
  - vm_compute. reflexivity.
  - exists ids1, ids2, st'. split; [exact Hlen1|]. split; [exact Hlen2|].
    split; [exact Hrun|]. split; [|exact Hnodup].
    rewrite Hcol, !length_app, !length_zip_with, Hlen1, Hlen2. reflexivity.
Defined.

(** ** Without storage, and reads *)

(** X10. Without storage, [GET /], [GET /test] and [GET /api/products]
    still answer 200 (the last with the empty list), and the four other
    routes answer 500 "Database not available" whatever the input, a
    malformed identifier or an empty order included. *)
Theorem status_without_storage (alg : Numeric.summation) (req : request) :
  ∃ resp : response,
    handle alg req None = (resp, None)
    ∧ status_of resp = (if needs_storage req then 500 else 200)
    ∧ (needs_storage req = true →
         resp = Response 500 (detail "Database not available"))
    ∧ (req = ListProducts → resp = Response 200 (VList [])).
Proof.
  destruct req; cbn [handle]; rewrite ?read_root_run, ?test_database_run;
    eexists; (split; [reflexivity|]); (split; [reflexivity|]);
    split; intros; reflexivity || discriminate.
Qed.

(** X9. The four [GET] routes never change the state, whatever they are
    asked and whatever they answer. *)
Theorem reads_leave_the_store (alg : Numeric.summation) (req : request) (w : world) :
  is_read req = true →
  (handle alg req w).2 = w.
Proof.
  destruct req; try discriminate; intros _; cbn [handle].
  - by rewrite read_root_run.
  - by rewrite test_database_run.
  - destruct w as [st|]; [by rewrite list_products_run|reflexivity].
  - destruct w as [st|]; [by rewrite get_product_run|reflexivity].
Qed.

Lemma reads_leave_the_store_witness :
  (handle Numeric.Plain (GetProduct "654a1b2c3d4e5f60718293a4") (Some Sample.shop)).2
  = Some Sample.shop.
Proof.
  apply (reads_leave_the_store Numeric.Plain (GetProduct "654a1b2c3d4e5f60718293a4")
           (Some Sample.shop)).
  reflexivity.
Defined.

(** ** More on orders *)

(** X15. An order that is accepted (201) is answered with the stored
    document, [_id] replaced by [id], plus [message]: [status] is
    "pending", the customer fields and the items are those of the request
    (the items with the quantities as sent), and these eight keys are all
    there is. One document is appended to the order collection, under an
    identifier no document had, no other collection changes, and the
    supply of identifiers gets shorter. *)
Theorem create_order_shape (alg : Numeric.summation) (order : OrderIn.t)
    (st : storage) :
  status_of (POST_api_orders alg order (Some st)).1 = 201 →
  ∃ (body stored : pydict) (st' : storage) (oid : ObjectId),
    POST_api_orders alg order (Some st) = (Response 201 (VDict body), Some st')
    ∧ body = <["message" := VStr "Order placed successfully"]>
               (<["id" := VStr (Bson.str oid)]> (delete "_id" stored))
    ∧ body !! "_id" = None
    ∧ body !! "status" = Some (VStr "pending")
    ∧ body !! "customer_name" = Some (VStr (OrderIn.customer_name order))
    ∧ body !! "customer_email" = Some (VStr (OrderIn.customer_email order))
    ∧ body !! "shipping_address" = Some (VStr (OrderIn.shipping_address order))
    ∧ body !! "items"
      = Some (VList ((λ i, VDict (OrderItemIn.model_dump i)) <$> OrderIn.items order))
    ∧ dom body = {["message"; "id"; "customer_name"; "customer_email";
                   "shipping_address"; "items"; "total_amount"; "status"]}
    ∧ doc_oid stored = Some oid
    ∧ (oid ∉ stored_ids st)
    ∧ collection st' "order" = (collection st "order" ++ [stored])%list
    ∧ (∀ c, c ≠ "order" → collection st' c = collection st c)
    ∧ (length (identifiers st') < length (identifiers st))%nat.
Proof.
  intros Hstatus.
  destruct (decide (OrderIn.items order = [])) as [He|Hitems].
  { unfold POST_api_orders, route in Hstatus.
    rewrite create_order_empty_run in Hstatus by done. discriminate Hstatus. }
  destruct (POST_api_orders_cases alg order st Hitems)
    as [Hfail|(oid & rest & amounts & total & Hassign & Hamounts & Hsum)].
  { rewrite Hfail in Hstatus. discriminate Hstatus. }
  rewrite (POST_api_orders_run alg order st oid rest amounts total) in Hstatus |- * by done.
  destruct (_ && _); [|discriminate Hstatus].
  set (data := order_data order (VFloat (Numeric.float_round2 total))).
  exists (<["message" := VStr "Order placed successfully"]>
            (<["id" := VStr (Bson.str oid)]> data)),
         (with_id oid data), (inserted "order" oid data rest st), oid.
  split; [done|]. split.
  { unfold with_id. rewrite delete_insert_eq, delete_id; done. }
  repeat (split; [reflexivity|]).
  split; [by apply (assign_fresh _ _ _ Hassign)|].
  split; [by rewrite collection_inserted, decide_True|].
  split.
  - intros c Hc. by rewrite collection_inserted, decide_False.
  - apply assign_suffix in Hassign as [skipped ->]. simpl.
    rewrite length_app. simpl. lia.
Qed.

Lemma create_order_shape_witness :
  ∃ (body : pydict) (st' : storage),
    POST_api_orders Numeric.Plain Sample2.negative_order (Some Sample.shop)
    = (Response 201 (VDict body), Some st')
    ∧ body !! "status" = Some (VStr "pending")
    ∧ body !! "items"
      = Some (VList ((λ i, VDict (OrderItemIn.model_dump i))
                       <$> [Sample.line 10 2; Sample.line 5.5 (-3)])).
Proof.
  destruct (create_order_shape Numeric.Plain Sample2.negative_order Sample.shop)
    as (body & stored & st' & oid & Hrun & _ & _ & Hstatus & _ & _ & _ & Hitems & _);
    [vm_compute; reflexivity|].
  exists body, st'. split; [exact Hrun|]. split; [exact Hstatus|exact Hitems].
Defined.

Lemma line_amounts_ext (items1 items2 : list OrderItemIn.t) :
  (λ i, (OrderItemIn.price i, Z.max 1 (OrderItemIn.quantity i))) <$> items1
  = (λ i, (OrderItemIn.price i, Z.max 1 (OrderItemIn.quantity i))) <$> items2 →
  line_amounts items1 = line_amounts items2.
Proof.
  unfold line_amounts. revert items2.
  induction items1 as [|i1 items1 IH]; intros [|i2 items2]; try done.
  rewrite !fmap_cons. intros [= Hp Hq Hrest]. simpl.
  unfold line_amount at 1 3. rewrite Hp, Hq. by rewrite (IH items2).
Qed.

Lemma finite_prices_ext (items1 items2 : list OrderItemIn.t) :
  (λ i, (OrderItemIn.price i, Z.max 1 (OrderItemIn.quantity i))) <$> items1
  = (λ i, (OrderItemIn.price i, Z.max 1 (OrderItemIn.quantity i))) <$> items2 →
  forallb (λ i, PrimFloat.is_finite (OrderItemIn.price i)) items1
  = forallb (λ i, PrimFloat.is_finite (OrderItemIn.price i)) items2.
Proof.
  revert items2.
  induction items1 as [|i1 items1 IH]; intros [|i2 items2]; try done.
  rewrite !fmap_cons. intros [= Hp Hq Hrest]. simpl.
  by rewrite Hp, (IH items2).
Qed.

(** X16. The total reads a quantity only through [max(1, quantity)]: two
    orders whose items agree on the prices and on the quantities so
    clamped get the same status and the same total, so a zero or negative
    quantity is charged as 1. *)
Theorem order_total_clamps_quantity (alg : Numeric.summation) (o1 o2 : OrderIn.t)
    (st1 st2 : storage) (i1 i2 : ObjectId) (rest1 rest2 : list ObjectId) :
  (λ i, (OrderItemIn.price i, Z.max 1 (OrderItemIn.quantity i))) <$> OrderIn.items o1
  = (λ i, (OrderItemIn.price i, Z.max 1 (OrderItemIn.quantity i))) <$> OrderIn.items o2 →
  identifiers st1 = i1 :: rest1 → i1 ∉ stored_ids st1 →
  identifiers st2 = i2 :: rest2 → i2 ∉ stored_ids st2 →
  status_of (POST_api_orders alg o1 (Some st1)).1
  = status_of (POST_api_orders alg o2 (Some st2)).1
  ∧ returned_total (POST_api_orders alg o1 (Some st1)).1
    = returned_total (POST_api_orders alg o2 (Some st2)).1.
Proof.
  intros Hitems Hids1 Hfresh1 Hids2 Hfresh2.
  pose proof (assign_head st1 i1 rest1 Hids1 Hfresh1) as Hassign1.
  pose proof (assign_head st2 i2 rest2 Hids2 Hfresh2) as Hassign2.
  pose proof (line_amounts_ext _ _ Hitems) as Hamounts.
  pose proof (finite_prices_ext _ _ Hitems) as Hprices.
  destruct (decide (OrderIn.items o1 = [])) as [He|Hne].
  { assert (OrderIn.items o2 = []) as He2.
    { rewrite He in Hitems. by destruct (OrderIn.items o2). }
    unfold POST_api_orders, route. by rewrite !create_order_empty_run. }
  assert (OrderIn.items o2 ≠ []) as Hne2.
  { intros He2. rewrite He2 in Hitems. by destruct (OrderIn.items o1). }
  destruct (line_amounts (OrderIn.items o1)) as [amounts|e] eqn:H1.
  - destruct (py_sum_float alg amounts) as [total Hsum].
    { eapply results_nonempty; [exact H1|].
      unfold line_amounts. by destruct (OrderIn.items o1). }
    rewrite (POST_api_orders_run alg o1 st1 i1 rest1 amounts total) by done.
    rewrite (POST_api_orders_run alg o2 st2 i2 rest2 amounts total) by done.
    rewrite <- Hprices. by destruct (_ && _).
  - unfold POST_api_orders, route.
    rewrite (create_order_raise alg o1 st1 e) by done.
    rewrite (create_order_raise alg o2 st2 e) by done.
    by destruct e.
Qed.

Lemma order_total_clamps_quantity_witness :
  returned_total (POST_api_orders Numeric.Plain Sample.order (Some Sample.shop)).1
  = returned_total
      (POST_api_orders Numeric.Plain Sample2.negative_order (Some Sample.shop)).1.
Proof.
  destruct (order_total_clamps_quantity Numeric.Plain Sample.order
              Sample2.negative_order Sample.shop Sample.shop Sample.oid3 Sample.oid3
              [Sample.oid4; Sample.oid5; Sample.oid6]
              [Sample.oid4; Sample.oid5; Sample.oid6])
    as (_ & Htotal).
  - reflexivity.
  - reflexivity.
  - apply fresh_in_shop. vm_compute. reflexivity.
  - reflexivity.
  - apply fresh_in_shop. vm_compute. reflexivity.
  - exact Htotal.
Defined.

Lemma results_raise {A} (rs : list (result A)) e :
  Raise e ∈ rs → (∀ r, r ∈ rs → ∀ e', r = Raise e' → e' = e) → results rs = Raise e.
Proof.
  induction rs as [|[a|e0] rs IH]; intros Hin Hall; [by apply elem_of_nil in Hin| |].
  - simpl. rewrite IH; [done| |].
    + by apply elem_of_cons in Hin as [|].
    + intros r Hr. apply Hall. by apply list_elem_of_further.
  - simpl. f_equal. apply (Hall (Raise e0)); [apply list_elem_of_here|done].
Qed.

(** X17. When the quantity of some item is too large to be converted to
    a float, the order is answered 500 and nothing is stored. *)
Theorem create_order_overflow (alg : Numeric.summation) (order : OrderIn.t)
    (st : storage) (i : OrderItemIn.t) :
  i ∈ OrderIn.items order →
  Numeric.float_of_int (Z.max 1 (OrderItemIn.quantity i)) = None →
  POST_api_orders alg order (Some st)
  = (Response 500 (VStr "Internal Server Error"), Some st).
Proof.
  intros Hi Hover. unfold POST_api_orders, route.
  rewrite (create_order_raise alg order st
             (OverflowError "int too large to convert to float")); [done| |].
  - intros He. rewrite He in Hi. by apply elem_of_nil in Hi.
  - unfold line_amounts. apply results_raise.
    + apply list_elem_of_fmap. exists i. split; [|done].
      unfold line_amount, Numeric.float_mul_int. by rewrite Hover.
    + intros r (j & -> & _)%list_elem_of_fmap e'.
      unfold line_amount, Numeric.float_mul_int.
      destruct (Numeric.float_of_int (Z.max 1 (OrderItemIn.quantity j))); [done|].
      congruence.
Qed.

Lemma create_order_overflow_witness :
  POST_api_orders Numeric.Plain Sample2.huge_order (Some Sample.shop)
  = (Response 500 (VStr "Internal Server Error"), Some Sample.shop).
Proof.
  apply (create_order_overflow Numeric.Plain Sample2.huge_order Sample.shop
           (Sample.line 1 (2 ^ 1024))).
  - apply list_elem_of_here.
  - vm_compute. reflexivity.
Defined.
